(** * watch-my-sight: the [useObjectDetection] hook

    A shallow embedding of [src/hooks/useObjectDetection.ts].

    The hook is a React function component hook.  Its state lives in two
    [useState] cells ([detections], [isProcessing]) and three [useRef]
    cells ([workerRef], [streamRef], [intervalRef]); everything else it
    touches belongs to the browser: the interval timers registered with
    [setInterval], the video elements waiting for [loadedmetadata], the
    messages posted to the worker, the [fetch] requests on the wire, the
    canvas elements created with [document.createElement], the console,
    [Date.now()] and [Math.random()].

    The browser runs one handler at a time.  Each handler is embedded as
    a computation in a small state monad over [World]; an [async]
    function is cut at its [await]s, the part after an [await] being the
    handler of the event that resumes it.  After a handler React renders
    again and runs the effects whose dependencies changed ([dispatch]).

    Numbers: [Date.now()] is an integer number of milliseconds ([Z]);
    scores and coordinates are JavaScript doubles, embedded as rationals
    ([Q]), so that [0.80 + Math.random() * 0.15] is exact arithmetic.
    The doubles of the program differ from these rationals by rounding,
    of the order of [2^-53]: a bound is stated only where it holds with
    room to spare, never where the rational sits on the bound. *)

From Stdlib Require Import ZArith QArith List String Bool Lia Lqa.
Import ListNotations.

Open Scope Z_scope.

(** ** Data model *)

(** Modelled from the spec: [DetectionMode] is imported from
    ['@/types/detection'], which is not part of the sources; the hook
    compares [mode] with ['wasm'] (the Local backend) and ['server'] (the
    Remote backend) only. *)
Inductive DetectionMode : Type :=
| wasm
| server.

(** Modelled from the spec: [Detection] is imported from
    ['@/types/detection']; the fields are those of the object literals of
    the hook (lines 84-95 and 144-179). *)
Record Detection : Type := mkDetection {
  label : string;
  score : Q;
  xmin : Q;
  ymin : Q;
  xmax : Q;
  ymax : Q;
  frame_id : Z;
  capture_ts : Z;
  recv_ts : Z;
  inference_ts : Z
}.

Definition MediaStream := nat.
Definition TimerId := nat.
Definition WorkerId := nat.
Definition FetchId := nat.
Definition Pixels := list Z.

Bind Scope nat_scope with MediaStream TimerId WorkerId FetchId.

(** What the callbacks created by one render close over: [processFrame]
    is [useCallback(..., [mode, isProcessing])] and [startDetection] is
    [useCallback(..., [mode, processFrame])], so a [startDetection] and
    the [processFrame] it calls see the [mode] and [isProcessing] of the
    render that created them, not the current ones. *)
Record Render : Type := mkRender {
  r_mode : DetectionMode;
  r_isProcessing : bool
}.

(** A live [setInterval] registration: its callback is
    [() => processFrame(video)] with the [processFrame] of [tm_closure]. *)
Record Timer : Type := mkTimer {
  tm_id : TimerId;
  tm_closure : Render;
  tm_video : MediaStream
}.

(** A [startDetection] call suspended at
    [await new Promise(resolve => video.onloadedmetadata = resolve)]. *)
Record PendingStart : Type := mkPendingStart {
  ps_id : nat;
  ps_closure : Render;
  ps_video : MediaStream
}.

(** The object given to [workerRef.current.postMessage] (lines 50-56). *)
Record WorkerRequest : Type := mkWorkerRequest {
  imageData : Pixels;
  width : Z;
  height : Z;
  timestamp : Z;
  frameId : Z
}.

(** [event.data] as [onmessage] destructures it (line 19). *)
Record WorkerResponse : Type := mkWorkerResponse {
  resp_detections : list Detection;
  processingTime : Q
}.

(** The off-screen canvas of [processFrame] after [drawImage]. *)
Record Canvas : Type := mkCanvas {
  cv_width : Z;
  cv_height : Z;
  cv_data : Pixels
}.

(** The multipart body of the request to [/api/detect]: the JPEG blob of
    the canvas and [Date.now().toString()]. *)
Record FormData : Type := mkFormData {
  fd_image : Canvas;
  fd_timestamp : Z
}.

(** The JSON body of a successful response; [result.detections] may be
    missing. *)
Record ServerResult : Type := mkServerResult {
  sr_detections : option (list Detection);
  sr_recv_ts : Z;
  sr_inference_ts : Z
}.

Inductive JsonBody : Type :=
| JsonObject (result : ServerResult)
| JsonNull
| JsonMalformed.

(** How [await fetch(...)] settles. *)
Inductive FetchOutcome : Type :=
| Responded (ok : bool) (status : Z) (body : JsonBody)
| TransportFailure.

(** Modelled from the spec: the error kinds of section 7.  The hook
    declares and throws none of them. *)
Inductive ErrorKind : Type :=
| InvalidStreamError
| BackendNotReadyError
| BackendStoppedError
| RemoteUnavailableError.

Inductive Exn : Type :=
| FetchRejected
| JsonRejected
| NullDereference
| SpecError (k : ErrorKind).

Inductive Completion (A : Type) : Type :=
| Normal (a : A)
| Throw (e : Exn).
Arguments Normal {A} a.
Arguments Throw {A} e.

Inductive ConsoleLine : Type :=
| ConsoleLog (msg : string)
| ConsoleError (msg : string).

(** ** The world: hook cells and browser *)

Record Hook : Type := mkHook {
  mode : DetectionMode;
  detections : list Detection;
  isProcessing : bool;
  workerRef : option WorkerId;
  streamRef : option MediaStream;
  intervalRef : option TimerId
}.

Record Browser : Type := mkBrowser {
  timers : list Timer;
  loading : list PendingStart;
  outbox : list (WorkerId * WorkerRequest);
  fetches : list (FetchId * FormData);
  canvases : nat;
  next_id : nat;
  clock_calls : nat;
  random_calls : nat;
  console : list ConsoleLine
}.

Record World : Type := mkWorld {
  hook : Hook;
  env : Browser
}.

Definition on_hook (f : Hook -> Hook) (w : World) : World :=
  mkWorld (f (hook w)) (env w).

Definition on_env (f : Browser -> Browser) (w : World) : World :=
  mkWorld (hook w) (f (env w)).

Definition with_mode (m : DetectionMode) (h : Hook) : Hook :=
  mkHook m (detections h) (isProcessing h) (workerRef h) (streamRef h)
         (intervalRef h).

Definition with_detections (ds : list Detection) (h : Hook) : Hook :=
  mkHook (mode h) ds (isProcessing h) (workerRef h) (streamRef h)
         (intervalRef h).

Definition with_isProcessing (b : bool) (h : Hook) : Hook :=
  mkHook (mode h) (detections h) b (workerRef h) (streamRef h)
         (intervalRef h).

Definition with_workerRef (r : option WorkerId) (h : Hook) : Hook :=
  mkHook (mode h) (detections h) (isProcessing h) r (streamRef h)
         (intervalRef h).

Definition with_streamRef (r : option MediaStream) (h : Hook) : Hook :=
  mkHook (mode h) (detections h) (isProcessing h) (workerRef h) r
         (intervalRef h).

Definition with_intervalRef (r : option TimerId) (h : Hook) : Hook :=
  mkHook (mode h) (detections h) (isProcessing h) (workerRef h)
         (streamRef h) r.

Definition with_timers (ts : list Timer) (b : Browser) : Browser :=
  mkBrowser ts (loading b) (outbox b) (fetches b) (canvases b) (next_id b)
            (clock_calls b) (random_calls b) (console b).

Definition with_loading (ps : list PendingStart) (b : Browser) : Browser :=
  mkBrowser (timers b) ps (outbox b) (fetches b) (canvases b) (next_id b)
            (clock_calls b) (random_calls b) (console b).

Definition with_outbox (o : list (WorkerId * WorkerRequest)) (b : Browser)
  : Browser :=
  mkBrowser (timers b) (loading b) o (fetches b) (canvases b) (next_id b)
            (clock_calls b) (random_calls b) (console b).

Definition with_fetches (fs : list (FetchId * FormData)) (b : Browser)
  : Browser :=
  mkBrowser (timers b) (loading b) (outbox b) fs (canvases b) (next_id b)
            (clock_calls b) (random_calls b) (console b).

Definition with_canvases (n : nat) (b : Browser) : Browser :=
  mkBrowser (timers b) (loading b) (outbox b) (fetches b) n (next_id b)
            (clock_calls b) (random_calls b) (console b).

Definition with_next_id (n : nat) (b : Browser) : Browser :=
  mkBrowser (timers b) (loading b) (outbox b) (fetches b) (canvases b) n
            (clock_calls b) (random_calls b) (console b).

Definition with_clock_calls (n : nat) (b : Browser) : Browser :=
  mkBrowser (timers b) (loading b) (outbox b) (fetches b) (canvases b)
            (next_id b) n (random_calls b) (console b).

Definition with_random_calls (n : nat) (b : Browser) : Browser :=
  mkBrowser (timers b) (loading b) (outbox b) (fetches b) (canvases b)
            (next_id b) (clock_calls b) n (console b).

Definition with_console (c : list ConsoleLine) (b : Browser) : Browser :=
  mkBrowser (timers b) (loading b) (outbox b) (fetches b) (canvases b)
            (next_id b) (clock_calls b) (random_calls b) c.

(** ** A state monad for handlers *)

Definition M (A : Type) : Type := World -> A * World.

Definition ret {A : Type} (a : A) : M A := fun w => (a, w).

Definition bind {A B : Type} (c : M A) (k : A -> M B) : M B :=
  fun w => let (a, w') := c w in k a w'.

Definition exec {A : Type} (c : M A) (w : World) : World := snd (c w).

Definition gets {A : Type} (f : World -> A) : M A := fun w => (f w, w).

Definition modify (f : World -> World) : M unit := fun w => (tt, f w).

Declare Scope hook_scope.
Delimit Scope hook_scope with hook.
Notation "x <- c ;; k" := (bind c (fun x => k))
  (at level 61, c at next level, right associativity) : hook_scope.
Notation "c ;; k" := (bind c (fun _ => k))
  (at level 61, right associativity) : hook_scope.
Open Scope hook_scope.

(** ** The hook *)

Definition addressed_to (wk : WorkerId) (p : WorkerId * WorkerRequest) : bool :=
  Nat.eqb (fst p) wk.

Section UseObjectDetection.

(** [now_at n] is what the [n]-th call of [Date.now()] returns and
    [random_at n] what the [n]-th call of [Math.random()] returns. *)
Variable now_at : nat -> Z.
Variable random_at : nat -> Q.

(** *** Browser primitives *)

Definition Date_now : M Z :=
  fun w =>
    let n := clock_calls (env w) in
    (now_at n, on_env (with_clock_calls (S n)) w).

Definition Math_random : M Q :=
  fun w =>
    let n := random_calls (env w) in
    (random_at n, on_env (with_random_calls (S n)) w).

Definition fresh : M nat :=
  fun w =>
    let n := S (next_id (env w)) in
    (n, on_env (with_next_id n) w).

Definition console_log (msg : string) : M unit :=
  modify (on_env (fun b => with_console (console b ++ [ConsoleLog msg]) b)).

Definition console_error (msg : string) : M unit :=
  modify (on_env (fun b => with_console (console b ++ [ConsoleError msg]) b)).

(** [document.createElement('canvas')]. *)
Definition createCanvas : M unit :=
  modify (on_env (fun b => with_canvases (S (canvases b)) b)).

(** [setInterval(() => processFrame(video), 1000 / 15)]: the handle is
    a fresh positive number, hence truthy. *)
Definition setInterval (r : Render) (video : MediaStream) : M TimerId :=
  id <- fresh ;;
  modify (on_env (fun b => with_timers (timers b ++ [mkTimer id r video]) b)) ;;
  ret id.

Definition clearInterval (id : TimerId) : M unit :=
  modify (on_env (fun b =>
    with_timers (filter (fun t => negb (Nat.eqb (tm_id t) id)) (timers b)) b)).

Definition postMessage (wk : WorkerId) (msg : WorkerRequest) : M unit :=
  modify (on_env (fun b => with_outbox (outbox b ++ [(wk, msg)]) b)).

Definition fetch (body : FormData) : M unit :=
  id <- fresh ;;
  modify (on_env (fun b => with_fetches (fetches b ++ [(id, body)]) b)).

(** [worker.terminate()]: the worker answers nothing any more. *)
Definition terminate (wk : WorkerId) : M unit :=
  modify (on_env (fun b =>
    with_outbox (filter (fun p => negb (addressed_to wk p)) (outbox b)) b)).

(** *** State and ref cells *)

Definition setDetections (ds : list Detection) : M unit :=
  modify (on_hook (with_detections ds)).

Definition setIsProcessing (b : bool) : M unit :=
  modify (on_hook (with_isProcessing b)).

Definition set_workerRef (r : option WorkerId) : M unit :=
  modify (on_hook (with_workerRef r)).

Definition set_streamRef (r : option MediaStream) : M unit :=
  modify (on_hook (with_streamRef r)).

Definition set_intervalRef (r : option TimerId) : M unit :=
  modify (on_hook (with_intervalRef r)).

(** The callbacks the latest render returned. *)
Definition current_render (w : World) : Render :=
  mkRender (mode (hook w)) (isProcessing (hook w)).

(** *** Lines 11-31: the worker effect and its cleanup *)

Definition workerEffect (m : DetectionMode) : M unit :=
  match m with
  | wasm => wk <- fresh ;; set_workerRef (Some wk)
  | server => ret tt
  end.

Definition workerCleanup : M unit :=
  r <- gets (fun w => workerRef (hook w)) ;;
  match r with
  | Some wk => terminate wk ;; set_workerRef None
  | None => ret tt
  end.

(** Lines 18-22: [workerRef.current.onmessage]. *)
Definition onmessage (data : WorkerResponse) : M unit :=
  setDetections (resp_detections data) ;;
  console_log "WASM detection completed".

(** *** Lines 33-100: [processFrame] *)

(** The object literal of lines 83-96, its properties evaluated in
    order. *)
Definition mockDetections : M (list Detection) :=
  r_score <- Math_random ;;
  r_xmin <- Math_random ;;
  r_ymin <- Math_random ;;
  r_xmax <- Math_random ;;
  r_ymax <- Math_random ;;
  t_frame <- Date_now ;;
  t_capture <- Date_now ;;
  t_recv <- Date_now ;;
  t_inference <- Date_now ;;
  ret [ mkDetection "person"
          (0.80 + r_score * 0.15)%Q
          (0.15 + r_xmin * 0.1)%Q
          (0.1 + r_ymin * 0.1)%Q
          (0.4 + r_xmax * 0.1)%Q
          (0.8 + r_ymax * 0.1)%Q
          t_frame t_capture (t_recv + 5) (t_inference + 35) ].

(** The [try] block from [await fetch] on (lines 68-79). *)
Definition fetch_try (o : FetchOutcome) : M (Completion unit) :=
  match o with
  | TransportFailure => ret (Throw FetchRejected)
  | Responded true _ (JsonObject result) =>
      setDetections (match sr_detections result with
                     | Some ds => ds
                     | None => []
                     end) ;;
      console_log "Server detection completed" ;;
      ret (Normal tt)
  | Responded true _ JsonNull => ret (Throw NullDereference)
  | Responded true _ JsonMalformed => ret (Throw JsonRejected)
  | Responded false _ _ =>
      console_error "Server detection failed with status:" ;;
      ret (Normal tt)
  end.

(** The [catch] block (lines 80-98). *)
Definition fetch_catch (error : Exn) : M unit :=
  console_error "Server detection failed:" ;;
  ds <- mockDetections ;;
  setDetections ds.

Definition tryCatch (body : M (Completion unit)) (handler : Exn -> M unit)
  : M (Completion unit) :=
  c <- body ;;
  match c with
  | Normal _ => ret (Normal tt)
  | Throw e => handler e ;; ret (Normal tt)
  end.

(** [processFrame] from the [await fetch] on. *)
Definition processFrame_resume (o : FetchOutcome) : M (Completion unit) :=
  tryCatch (fetch_try o) fetch_catch.

(** [processFrame] up to the [await fetch]; the [await] of
    [canvas.toBlob] is folded into it.  [surface] is what the 2D context
    gives: [None] when [canvas.getContext('2d')] returns null, otherwise
    the RGBA buffer [getImageData(0, 0, 320, 240)] reads back after
    [drawImage(videoElement, 0, 0, 320, 240)]. *)
Definition processFrame (r : Render) (videoElement : option MediaStream)
           (surface : option Pixels) : M (Completion unit) :=
  match videoElement with
  | None => ret (Normal tt)
  | Some _ =>
    if negb (r_isProcessing r) then ret (Normal tt)
    else
      createCanvas ;;
      match surface with
      | None => ret (Normal tt)
      | Some px =>
        let canvas := mkCanvas 320 240 px in
        wr <- gets (fun w => workerRef (hook w)) ;;
        match r_mode r, wr with
        | wasm, Some wk =>
            ts <- Date_now ;;
            fid <- Date_now ;;
            postMessage wk
              (mkWorkerRequest (cv_data canvas) (cv_width canvas)
                               (cv_height canvas) ts fid) ;;
            ret (Normal tt)
        | wasm, None => ret (Normal tt)
        | server, _ =>
            ts <- Date_now ;;
            fetch (mkFormData canvas ts) ;;
            ret (Normal tt)
        end
      end
  end.

(** *** Lines 102-124: [startDetection] *)

Definition startDetection (r : Render) (stream : option MediaStream)
  : M (Completion unit) :=
  match stream with
  | None => ret (Normal tt)
  | Some s =>
      set_streamRef (Some s) ;;
      setIsProcessing true ;;
      id <- fresh ;;
      modify (on_env (fun b =>
        with_loading (loading b ++ [mkPendingStart id r s]) b)) ;;
      ret (Normal tt)
  end.

(** [startDetection] from [video.onloadedmetadata] on. *)
Definition startDetection_resume (p : PendingStart) : M unit :=
  id <- setInterval (ps_closure p) (ps_video p) ;;
  set_intervalRef (Some id) ;;
  console_log "Object detection started".

(** *** Lines 126-137: [stopDetection] *)

Definition stopDetection : M unit :=
  setIsProcessing false ;;
  setDetections [] ;;
  set_streamRef None ;;
  h <- gets (fun w => intervalRef (hook w)) ;;
  match h with
  | Some id => clearInterval id ;; set_intervalRef None
  | None => ret tt
  end ;;
  console_log "Object detection stopped".

(** *** Lines 139-187: the [isProcessing] effect *)

Definition testDetections : M (list Detection) :=
  f1 <- Date_now ;; c1 <- Date_now ;; r1 <- Date_now ;; i1 <- Date_now ;;
  f2 <- Date_now ;; c2 <- Date_now ;; r2 <- Date_now ;; i2 <- Date_now ;;
  f3 <- Date_now ;; c3 <- Date_now ;; r3 <- Date_now ;; i3 <- Date_now ;;
  ret [ mkDetection "person" 0.93 0.1 0.1 0.4 0.7
          f1 c1 (r1 + 10) (i1 + 25);
        mkDetection "phone" 0.87 0.5 0.2 0.7 0.5
          (f2 + 1) c2 (r2 + 8) (i2 + 20);
        mkDetection "bottle" 0.76 0.75 0.3 0.9 0.8
          (f3 + 2) c3 (r3 + 12) (i3 + 30) ].

Definition processingEffect : M unit :=
  p <- gets (fun w => isProcessing (hook w)) ;;
  if p then
    ds <- testDetections ;;
    setDetections ds ;;
    console_log "Test bounding boxes set:"
  else setDetections [].

End UseObjectDetection.

(** ** Events and renders *)

(** What can happen to a mounted hook: the consumer calls
    [startDetection] or [stopDetection] (the callbacks of the latest
    render), the parent renders with another [mode], and the browser
    delivers [loadedmetadata], an interval tick, a worker message or the
    settlement of a [fetch]. *)
Inductive Event : Type :=
| Start (stream : option MediaStream)
| LoadedMetadata (k : nat)
| Stop
| Tick (t : TimerId) (surface : option Pixels)
| WorkerMessage (wk : WorkerId) (data : WorkerResponse)
| FetchSettled (f : FetchId) (o : FetchOutcome)
| Rerender (m : DetectionMode).

Definition DetectionMode_eqb (a b : DetectionMode) : bool :=
  match a, b with
  | wasm, wasm => true
  | server, server => true
  | _, _ => false
  end.

Definition find_timer (t : TimerId) (w : World) : option Timer :=
  find (fun x => Nat.eqb (tm_id x) t) (timers (env w)).

Definition find_pending (k : nat) (w : World) : option PendingStart :=
  find (fun p => Nat.eqb (ps_id p) k) (loading (env w)).

Definition find_fetch (f : FetchId) (w : World) : option (FetchId * FormData) :=
  find (fun p => Nat.eqb (fst p) f) (fetches (env w)).

(** Drops the oldest element that satisfies [p]. *)
Fixpoint remove_first {A : Type} (p : A -> bool) (l : list A) : list A :=
  match l with
  | [] => []
  | x :: l' => if p x then l' else x :: remove_first p l'
  end.

(** Submissions posted to worker [wk] and not answered yet. *)
Definition in_flight_local (wk : WorkerId) (w : World) : nat :=
  List.length (filter (addressed_to wk) (outbox (env w))).

(** Requests sent to the endpoint and not settled yet. *)
Definition in_flight_remote (w : World) : nat :=
  List.length (fetches (env w)).

Definition live_timers (w : World) : nat :=
  List.length (timers (env w)).

Section Events.

Variable now_at : nat -> Z.
Variable random_at : nat -> Q.

(** Modelled from the spec: the worker script
    ([src/workers/yoloWorker.ts]) is not part of the sources; it
    answers a request with one [{ detections, processingTime }]
    message.  Which request a message answers is not visible to the
    hook; the oldest outstanding one is taken as answered.  A message
    reaches [onmessage] only from the worker under [workerRef], the
    others having been terminated. *)
Definition deliver_message (wk : WorkerId) (data : WorkerResponse) : M unit :=
  r <- gets (fun w => workerRef (hook w)) ;;
  n <- gets (in_flight_local wk) ;;
  match r, n with
  | Some wk', S _ =>
      if Nat.eqb wk' wk then
        modify (on_env (fun b =>
          with_outbox (remove_first (addressed_to wk) (outbox b)) b)) ;;
        onmessage data
      else ret tt
  | _, _ => ret tt
  end.

(** A render with another [mode] prop: the cleanup of the worker
    effect (lines 25-30) and then the effect again. *)
Definition rerender (m : DetectionMode) : M unit :=
  old <- gets (fun w => mode (hook w)) ;;
  if DetectionMode_eqb old m then ret tt
  else
    workerCleanup ;;
    modify (on_hook (with_mode m)) ;;
    workerEffect m.

Definition handler (ev : Event) : M unit :=
  match ev with
  | Start stream =>
      r <- gets current_render ;;
      startDetection r stream ;;
      ret tt
  | LoadedMetadata k =>
      p <- gets (find_pending k) ;;
      match p with
      | Some p =>
          modify (on_env (fun b =>
            with_loading
              (remove_first (fun q => Nat.eqb (ps_id q) k) (loading b)) b)) ;;
          startDetection_resume p
      | None => ret tt
      end
  | Stop => stopDetection
  | Tick t surface =>
      tm <- gets (find_timer t) ;;
      match tm with
      | Some tm =>
          processFrame now_at (tm_closure tm) (Some (tm_video tm)) surface ;;
          ret tt
      | None => ret tt
      end
  | WorkerMessage wk data => deliver_message wk data
  | FetchSettled f o =>
      q <- gets (find_fetch f) ;;
      match q with
      | Some _ =>
          modify (on_env (fun b =>
            with_fetches
              (remove_first (fun p => Nat.eqb (fst p) f) (fetches b)) b)) ;;
          processFrame_resume now_at random_at o ;;
          ret tt
      | None => ret tt
      end
  | Rerender m => rerender m
  end.

(** One event: its handler, then the render it causes.  The
    [isProcessing] effect runs when [isProcessing] differs from the
    previous render. *)
Definition dispatch (ev : Event) : M unit :=
  before <- gets (fun w => isProcessing (hook w)) ;;
  handler ev ;;
  after <- gets (fun w => isProcessing (hook w)) ;;
  if Bool.eqb before after then ret tt
  else processingEffect now_at.

Definition step (w : World) (ev : Event) : World := exec (dispatch ev) w.

Definition run (evs : list Event) (w : World) : World :=
  fold_left step evs w.

(** The hook before its first render: [useState([])],
    [useState(false)], [useRef(null)] three times. *)
Definition blank (m : DetectionMode) : World :=
  mkWorld (mkHook m [] false None None None)
          (mkBrowser [] [] [] [] 0 0 0 0 []).

(** The first render: both effects run. *)
Definition mount (m : DetectionMode) : World :=
  exec (workerEffect m ;; processingEffect now_at) (blank m).

End Events.

(** ** Properties the claims speak of *)

Local Open Scope Q_scope.

(** Section 3 of the spec, the [Detection] constraints. *)
Definition valid_detection (d : Detection) : Prop :=
  (0 <= score d /\ score d <= 1) /\
  xmin d < xmax d /\
  ymin d < ymax d /\
  (0 <= xmin d /\ xmin d <= 1) /\
  (0 <= ymin d /\ ymin d <= 1) /\
  (0 <= xmax d /\ xmax d <= 1) /\
  (0 <= ymax d /\ ymax d <= 1) /\
  (capture_ts d <= recv_ts d)%Z /\
  (recv_ts d <= inference_ts d)%Z.

Definition Qlt_bool (a b : Q) : bool := negb (Qle_bool b a).

Definition valid_detectionb (d : Detection) : bool :=
  Qle_bool 0 (score d) && Qle_bool (score d) 1 &&
  Qlt_bool (xmin d) (xmax d) &&
  Qlt_bool (ymin d) (ymax d) &&
  Qle_bool 0 (xmin d) && Qle_bool (xmin d) 1 &&
  Qle_bool 0 (ymin d) && Qle_bool (ymin d) 1 &&
  Qle_bool 0 (xmax d) && Qle_bool (xmax d) 1 &&
  Qle_bool 0 (ymax d) && Qle_bool (ymax d) 1 &&
  Z.leb (capture_ts d) (recv_ts d) &&
  Z.leb (recv_ts d) (inference_ts d).

Local Close Scope Q_scope.

(** [Date.now()] never goes back. *)
Definition clock_monotone (now_at : nat -> Z) : Prop :=
  forall n m, (n <= m)%nat -> now_at n <= now_at m.

(** [Math.random()] is in [[0, 1)]. *)
Definition random_unit (random_at : nat -> Q) : Prop :=
  forall n, (0 <= random_at n)%Q /\ (random_at n < 1)%Q.

(** The invariant of claim C10. *)
Definition idle_is_empty (w : World) : Prop :=
  isProcessing (hook w) = false -> detections (hook w) = [].

(** The events that complete a submission. *)
Definition is_completion (ev : Event) : bool :=
  match ev with
  | WorkerMessage _ _ => true
  | FetchSettled _ _ => true
  | _ => false
  end.

(** The settlements of a [fetch] that leave the [try] block by an
    exception: the request itself fails, or the body of a successful
    response is not a JSON object. *)
Definition enters_catch (o : FetchOutcome) : bool :=
  match o with
  | TransportFailure => true
  | Responded true _ JsonNull => true
  | Responded true _ JsonMalformed => true
  | _ => false
  end.

(** The detections an event brings in from a collaborator, the worker
    or the endpoint, are valid. *)
Definition relayed_valid (ev : Event) : Prop :=
  match ev with
  | WorkerMessage _ data => Forall valid_detection (resp_detections data)
  | FetchSettled _ (Responded true _ (JsonObject result)) =>
      match sr_detections result with
      | Some ds => Forall valid_detection ds
      | None => True
      end
  | _ => True
  end.

Definition published_valid (w : World) : Prop :=
  Forall valid_detection (detections (hook w)).

(** ** Concrete inputs *)

Definition clock0 (n : nat) : Z := 1700000000000 + Z.of_nat n.

Definition dice0 (n : nat) : Q := (1 # 2)%Q.

Definition camera : MediaStream := 7%nat.

Definition frame0 : Pixels := [255; 0; 0; 255].

Definition frame1 : Pixels := [0; 255; 0; 255].

Definition person0 : Detection :=
  mkDetection "person" 0.9%Q 0.1%Q 0.1%Q 0.4%Q 0.7%Q
              1 1700000000100 1700000000105 1700000000125.

Definition reply0 : WorkerResponse := mkWorkerResponse [person0] 20%Q.

Local Open Scope nat_scope.

(** The double start used below: a first [startDetection] from the idle
    render, then a second one from the running render, each followed by
    its [loadedmetadata].  With [mount] having taken id 1 for the worker
    in [wasm] mode, the pending starts are 2 and 4 and the timers 3 and
    5; in [server] mode they are 1 and 3, and 2 and 4. *)
Definition restart_wasm : list Event :=
  [Start (Some camera); LoadedMetadata 2; Start (Some camera); LoadedMetadata 4].

Definition restart_server : list Event :=
  [Start (Some camera); LoadedMetadata 1; Start (Some camera); LoadedMetadata 3].

Definition two_ticks_wasm : list Event :=
  restart_wasm ++ [Tick 5 (Some frame0); Tick 5 (Some frame1)].

Definition late_reply_wasm : list Event :=
  restart_wasm ++ [Tick 5 (Some frame0); Stop; WorkerMessage 1 reply0].

Definition empty_result : ServerResult := mkServerResult (Some []) 0%Z 0%Z.

(** Two requests on the wire; the first is answered 200 with no
    detections, the second 500. *)
Definition before_500_server : list Event :=
  restart_server ++
  [Tick 4 (Some frame0); Tick 4 (Some frame1);
   FetchSettled 5 (Responded true 200%Z (JsonObject empty_result))].

Definition http_500_server : list Event :=
  before_500_server ++ [FetchSettled 6 (Responded false 500%Z JsonNull)].

Definition stopped_in_flight_server : list Event :=
  restart_server ++ [Tick 4 (Some frame0); Stop].

Definition late_failure_server : list Event :=
  stopped_in_flight_server ++ [FetchSettled 5 TransportFailure].

(** A running session whose single timer is the one under the handle. *)
Definition running_once : World :=
  run clock0 dice0 [Start (Some camera); LoadedMetadata 2] (mount clock0 wasm).

Definition restarted_wasm : World :=
  run clock0 dice0 restart_wasm (mount clock0 wasm).

Definition restarted_server : World :=
  run clock0 dice0 restart_server (mount clock0 server).

(** The timers of [running_once], [restarted_wasm] and
    [restarted_server]. *)
Definition timer3 : Timer := mkTimer 3 (mkRender wasm false) camera.

Definition timer5 : Timer := mkTimer 5 (mkRender wasm true) camera.

Definition timer4 : Timer := mkTimer 4 (mkRender server true) camera.

Local Close Scope nat_scope.

(** ** Properties of the sessions as a whole *)

(** Lines 11-31: a worker is held exactly in [wasm] mode. *)
Definition worker_matches_mode (w : World) : bool :=
  match mode (hook w), workerRef (hook w) with
  | wasm, Some _ => true
  | server, None => true
  | _, _ => false
  end.

(** [streamRef] is set exactly while [isProcessing] is. *)
Definition stream_matches_processing (w : World) : bool :=
  Bool.eqb (isProcessing (hook w))
           (match streamRef (hook w) with Some _ => true | None => false end).

(** When the handle is set, its timer is registered. *)
Definition handle_live (w : World) : bool :=
  match intervalRef (hook w) with
  | Some id => existsb (fun t => Nat.eqb (tm_id t) id) (timers (env w))
  | None => true
  end.

(** The labels of the test detections of lines 143-180. *)
Definition test_labels : list string := ["person"; "phone"; "bottle"]%string.

Definition stale_timer (t : Timer) : Prop :=
  r_isProcessing (tm_closure t) = false.

Definition stale_pending (p : PendingStart) : Prop :=
  r_isProcessing (ps_closure p) = false.

(** No frame has ever left the hook, and what is published is what the
    [isProcessing] effect put there. *)
Definition nothing_dispatched (w : World) : Prop :=
  Forall stale_timer (timers (env w)) /\
  Forall stale_pending (loading (env w)) /\
  outbox (env w) = [] /\
  fetches (env w) = [] /\
  canvases (env w) = 0%nat /\
  (if isProcessing (hook w)
   then map label (detections (hook w)) = test_labels
   else detections (hook w) = []).

(** A worker request as line 50-56 build it under a clock that does
    not go back. *)
Definition request_ok (p : WorkerId * WorkerRequest) : Prop :=
  width (snd p) = 320 /\ height (snd p) = 240 /\
  timestamp (snd p) <= frameId (snd p).

Definition upload_ok (q : FetchId * FormData) : Prop :=
  cv_width (fd_image (snd q)) = 320 /\ cv_height (fd_image (snd q)) = 240.

(** What line 75 publishes: [result.detections || []]. *)
Definition published_of (result : ServerResult) : list Detection :=
  match sr_detections result with
  | Some ds => ds
  | None => []
  end.

(** The cells that say which session is running, and the timers and
    pending starts that belong to it. *)
Definition session_cells (w : World)
  : DetectionMode * bool * option WorkerId * option MediaStream *
    option TimerId * list Timer * list PendingStart :=
  (mode (hook w), isProcessing (hook w), workerRef (hook w),
   streamRef (hook w), intervalRef (hook w), timers (env w),
   loading (env w)).

(** The frame identifiers of the requests not answered yet, oldest
    first. *)
Definition frame_ids (w : World) : list Z :=
  map (fun p => frameId (snd p)) (outbox (env w)).

(** No identifier is smaller than one before it. *)
Fixpoint nondecreasing (l : list Z) : Prop :=
  match l with
  | [] => True
  | x :: rest => Forall (fun y => x <= y) rest /\ nondecreasing rest
  end.

(** The requests on their way are well formed, and the frame
    identifiers of those to the worker are in order and not ahead of the
    clock. *)
Definition requests_in_order (now_at : nat -> Z) (w : World) : Prop :=
  Forall request_ok (outbox (env w)) /\
  Forall upload_ok (fetches (env w)) /\
  Forall (fun id => id <= now_at (clock_calls (env w))) (frame_ids w) /\
  nondecreasing (frame_ids w).

(** Unmounting runs the cleanups of the effects; the worker effect is
    the only one that returns a cleanup (lines 25-30). *)
Definition unmount : M unit := workerCleanup.

Section Discipline.

Variable now_at : nat -> Z.
Variable random_at : nat -> Q.

(** The consumer calls [startDetection] with a stream only while the
    hook is not processing. *)
Fixpoint starts_from_idle (evs : list Event) (w : World) : Prop :=
  match evs with
  | [] => True
  | ev :: rest =>
      match ev with
      | Start (Some _) => isProcessing (hook w) = false
      | _ => True
      end /\
      starts_from_idle rest (step now_at random_at w ev)
  end.

End Discipline.

(** A session driven the usual way: start, load, ticks, stop, and
    again. *)
Definition usual_session : list Event :=
  [Start (Some camera); LoadedMetadata 2%nat; Tick 3%nat (Some frame0);
   Stop; Start (Some camera); LoadedMetadata 4%nat;
   Tick 5%nat (Some frame1)].

(** Three starts with no stop in between: timers 3, 5 and 7. *)
Definition three_starts_wasm : list Event :=
  restart_wasm ++ [Start (Some camera); LoadedMetadata 6%nat].

(** A clock that is set back 100 ms between any two readings. *)
Definition clock_back (n : nat) : Z := 1700000000000 - 100 * Z.of_nat n.

(** A detection no worker should send: score 2. *)
Definition bad_detection : Detection :=
  mkDetection "person" 2%Q 0.1%Q 0.1%Q 0.4%Q 0.7%Q
              1 1700000000100 1700000000105 1700000000125.

Definition bad_reply : WorkerResponse := mkWorkerResponse [bad_detection] 20%Q.

Definition invalid_reply_wasm : list Event :=
  restart_wasm ++ [Tick 5%nat (Some frame0); WorkerMessage 1%nat bad_reply].

(** Two requests on the wire, 5 for [frame0] and 6 for [frame1]. *)
Definition two_requests_server : World :=
  run clock0 dice0 [Tick 4%nat (Some frame0); Tick 4%nat (Some frame1)]
      restarted_server.

Definition person_result : ServerResult :=
  mkServerResult (Some [person0]) 1700000000105 1700000000125.

(** * Proofs *)

Ltac open_world w :=
  let m := fresh "m" in
  let ds := fresh "ds" in
  let p := fresh "p" in
  let wr := fresh "wr" in
  let sr := fresh "sr" in
  let ir := fresh "ir" in
  let tms := fresh "tms" in
  let ld := fresh "ld" in
  let ob := fresh "ob" in
  let fs := fresh "fs" in
  let cv := fresh "cv" in
  let nid := fresh "nid" in
  let cc := fresh "cc" in
  let rc := fresh "rc" in
  let con := fresh "con" in
  destruct w as [[m ds p wr sr ir] [tms ld ob fs cv nid cc rc con]].

(** ** Session start and stop *)

(** C1, as the code has it: [startDetection] with a null stream returns
    normally, throws nothing, and changes no field of the hook or of the
    browser; the render that follows runs no effect. *)
Theorem C1_start_null_returns_unchanged :
  forall (now_at : nat -> Z) (random_at : nat -> Q) (r : Render) (w : World),
    startDetection r None w = (Normal tt, w) /\
    step now_at random_at w (Start None) = w.
Proof.
  intros now_at random_at r w. split.
  - reflexivity.
  - unfold step, exec, dispatch, handler, bind, gets. cbn.
    rewrite Bool.eqb_reflx. reflexivity.
Qed.

(** C1, as the spec states it, fails: on the mounted idle hook the call
    with a null stream does not end in [InvalidStreamError]. *)
Lemma C1_no_InvalidStreamError :
  fst (startDetection (current_render (mount clock0 wasm)) None
         (mount clock0 wasm))
  <> Throw (SpecError InvalidStreamError).
Proof. cbn. discriminate. Qed.

(** Whatever the world, after [stopDetection] and the render it causes
    [isProcessing] is false, [detections] is empty, the stream and timer
    handles are null, and the timer that was under the handle is no
    longer registered.  Nothing else is touched: a timer that was not
    under the handle stays registered, and so do the pending starts and
    the submissions in flight. *)
Lemma stop_resets_cells :
  forall (now_at : nat -> Z) (random_at : nat -> Q) (w : World),
    let w' := step now_at random_at w Stop in
    isProcessing (hook w') = false /\
    detections (hook w') = [] /\
    streamRef (hook w') = None /\
    intervalRef (hook w') = None /\
    timers (env w') =
      match intervalRef (hook w) with
      | Some id => filter (fun t => negb (Nat.eqb (tm_id t) id)) (timers (env w))
      | None => timers (env w)
      end /\
    match intervalRef (hook w) with
    | Some id => find_timer id w' = None
    | None => True
    end /\
    loading (env w') = loading (env w) /\
    outbox (env w') = outbox (env w) /\
    fetches (env w') = fetches (env w).
Proof.
  intros now_at random_at w. open_world w.
  assert (Hgone : forall id, find (fun x : Timer => Nat.eqb (tm_id x) id)
             (filter (fun t => negb (Nat.eqb (tm_id t) id)) tms) = None).
  { intros id. induction tms as [|t l IH]; cbn; [reflexivity|].
    destruct (Nat.eqb (tm_id t) id) eqn:E; cbn; [exact IH|].
    rewrite E. exact IH. }
  destruct p, ir as [id|]; cbn; repeat split; apply Hgone.
Qed.

(** C7, evaluated on the code: after three starts with no stop in
    between, the handle is that of the third timer, 7.  [stopDetection]
    makes the hook idle and clears timer 7 and the handle, but timer 5,
    whose [processFrame] sees [isProcessing] true, stays registered: its
    next tick creates a canvas and posts a frame to the worker.  The
    sampler is not stopped. *)
Theorem C7_stop_leaves_restarted_sampler_running :
  let running := run clock0 dice0 three_starts_wasm (mount clock0 wasm) in
  let stopped := step clock0 dice0 running Stop in
  let later := step clock0 dice0 stopped (Tick 5 (Some frame0)) in
  map tm_id (timers (env running)) = [3; 5; 7]%nat /\
  intervalRef (hook running) = Some 7%nat /\
  isProcessing (hook stopped) = false /\
  detections (hook stopped) = [] /\
  intervalRef (hook stopped) = None /\
  timers (env stopped) = [timer3; timer5] /\
  in_flight_local 1 stopped = 0%nat /\
  in_flight_local 1 later = 1%nat /\
  canvases (env later) = S (canvases (env stopped)).
Proof.
  cbv zeta.
  split; [vm_compute; reflexivity|].
  split; [vm_compute; reflexivity|].
  split; [vm_compute; reflexivity|].
  split; [vm_compute; reflexivity|].
  split; [vm_compute; reflexivity|].
  split; [vm_compute; reflexivity|].
  split; [vm_compute; reflexivity|].
  split; vm_compute; reflexivity.
Qed.

(** The timer of a first start closes over the idle render: its
    [processFrame] sees [isProcessing] false and returns at line 34, so
    its ticks dispatch nothing. *)
Example first_start_timer_is_stale :
  find_timer 3 running_once = Some timer3 /\
  isProcessing (hook running_once) = true /\
  step clock0 dice0 running_once (Tick 3 (Some frame0)) = running_once.
Proof.
  split; [reflexivity|]. split; [reflexivity|].
  vm_compute. reflexivity.
Qed.

(** ** Frames: what a tick does *)

Section Ticks.

Variable now_at : nat -> Z.
Variable random_at : nat -> Q.

(** A tick of a timer whose closure has [isProcessing] false, or of a
    timer that is not registered, does nothing at all. *)
Lemma tick_stale_closure (w : World) (t : TimerId) (tm : Timer)
      (surface : option Pixels) :
  find_timer t w = Some tm ->
  r_isProcessing (tm_closure tm) = false ->
  step now_at random_at w (Tick t surface) = w.
Proof.
  intros Hfind Hcl.
  unfold step, exec, dispatch, handler, bind, gets.
  rewrite Hfind. unfold processFrame. rewrite Hcl. cbn.
  rewrite Bool.eqb_reflx. reflexivity.
Qed.

Lemma tick_cleared_timer (w : World) (t : TimerId)
      (surface : option Pixels) :
  find_timer t w = None ->
  step now_at random_at w (Tick t surface) = w.
Proof.
  intros Hfind.
  unfold step, exec, dispatch, handler, bind, gets.
  rewrite Hfind. cbn. rewrite Bool.eqb_reflx. reflexivity.
Qed.

(** A tick of a timer whose closure has [isProcessing] true, in
    [wasm] mode with a worker: one canvas more, two clock readings, one
    message more to the worker; the hook cells are untouched. *)
Lemma tick_wasm (w : World) (t : TimerId) (tm : Timer) (wk : WorkerId)
      (px : Pixels) :
  find_timer t w = Some tm ->
  r_isProcessing (tm_closure tm) = true ->
  r_mode (tm_closure tm) = wasm ->
  workerRef (hook w) = Some wk ->
  step now_at random_at w (Tick t (Some px)) =
  mkWorld (hook w)
    (mkBrowser (timers (env w)) (loading (env w))
       (outbox (env w) ++
        [(wk, mkWorkerRequest px 320 240
                (now_at (clock_calls (env w)))
                (now_at (S (clock_calls (env w)))))])
       (fetches (env w)) (S (canvases (env w))) (next_id (env w))
       (S (S (clock_calls (env w)))) (random_calls (env w))
       (console (env w))).
Proof.
  intros Hfind Hcl Hmode Hwk.
  unfold step, exec, dispatch, handler, bind, gets.
  rewrite Hfind. unfold processFrame. rewrite Hcl, Hmode.
  open_world w. cbn in Hwk. subst wr. cbn.
  rewrite Bool.eqb_reflx. reflexivity.
Qed.

(** The same in [server] mode: one canvas more, one clock reading, one
    request more on the wire. *)
Lemma tick_server (w : World) (t : TimerId) (tm : Timer) (px : Pixels) :
  find_timer t w = Some tm ->
  r_isProcessing (tm_closure tm) = true ->
  r_mode (tm_closure tm) = server ->
  step now_at random_at w (Tick t (Some px)) =
  mkWorld (hook w)
    (mkBrowser (timers (env w)) (loading (env w)) (outbox (env w))
       (fetches (env w) ++
        [(S (next_id (env w)),
          mkFormData (mkCanvas 320 240 px) (now_at (clock_calls (env w))))])
       (S (canvases (env w))) (S (next_id (env w)))
       (S (clock_calls (env w))) (random_calls (env w))
       (console (env w))).
Proof.
  intros Hfind Hcl Hmode.
  unfold step, exec, dispatch, handler, bind, gets.
  rewrite Hfind. unfold processFrame. rewrite Hcl, Hmode.
  open_world w. cbn. rewrite Bool.eqb_reflx. reflexivity.
Qed.

End Ticks.

(** ** Start, resume and worker messages on an arbitrary world *)

Section Sessions.

Variable now_at : nat -> Z.
Variable random_at : nat -> Q.

(** [startDetection] with a stream, from the latest render. *)
Lemma start_some (w : World) (s : MediaStream) :
  let w' := step now_at random_at w (Start (Some s)) in
  isProcessing (hook w') = true /\
  streamRef (hook w') = Some s /\
  intervalRef (hook w') = intervalRef (hook w) /\
  mode (hook w') = mode (hook w) /\
  timers (env w') = timers (env w) /\
  next_id (env w') = S (next_id (env w)) /\
  loading (env w') =
    loading (env w) ++ [mkPendingStart (S (next_id (env w))) (current_render w) s].
Proof.
  open_world w. destruct p; cbn; repeat split; reflexivity.
Qed.

(** [loadedmetadata]: the interval is registered and its handle
    written over whatever [intervalRef] held. *)
Lemma loaded_registers_timer (w : World) (k : nat) (p : PendingStart) :
  find_pending k w = Some p ->
  let w' := step now_at random_at w (LoadedMetadata k) in
  hook w' = with_intervalRef (Some (S (next_id (env w)))) (hook w) /\
  timers (env w') =
    timers (env w) ++ [mkTimer (S (next_id (env w))) (ps_closure p) (ps_video p)] /\
  next_id (env w') = S (next_id (env w)).
Proof.
  intros Hfind.
  unfold step, exec, dispatch, handler, bind, gets.
  rewrite Hfind. open_world w. cbn.
  rewrite Bool.eqb_reflx. cbn. repeat split; reflexivity.
Qed.

(** Lines 18-22 through the event loop: the message of the current
    worker replaces [detections], whatever [isProcessing] is. *)
Lemma worker_message_published (w : World) (wk : WorkerId)
      (data : WorkerResponse) :
  workerRef (hook w) = Some wk ->
  (0 < in_flight_local wk w)%nat ->
  hook (step now_at random_at w (WorkerMessage wk data)) =
  with_detections (resp_detections data) (hook w).
Proof.
  intros Hwk Hn.
  unfold step, exec, dispatch, handler, deliver_message, bind, gets.
  rewrite Hwk.
  destruct (in_flight_local wk w) as [|n] eqn:E; [inversion Hn|].
  rewrite Nat.eqb_refl. open_world w. cbn.
  rewrite Bool.eqb_reflx. reflexivity.
Qed.

Lemma in_flight_local_snoc (b : Browser) (h h' : Hook) (wk : WorkerId)
      (req : WorkerRequest) :
  in_flight_local wk (mkWorld h' (with_outbox (outbox b ++ [(wk, req)]) b)) =
  S (in_flight_local wk (mkWorld h b)).
Proof.
  unfold in_flight_local. cbn [env outbox with_outbox].
  rewrite filter_app, length_app. cbn [filter].
  unfold addressed_to at 2. cbn [fst]. rewrite Nat.eqb_refl.
  cbn [List.length]. lia.
Qed.

End Sessions.

(** ** Restart *)

(** C2, evaluated on the code: in a running session whose only timer
    [t] is the one under the handle, a second [startDetection] (with its
    [loadedmetadata]) leaves [t] registered and adds a second timer,
    whose handle overwrites the one of [t]; [stopDetection] followed by
    [startDetection] leaves the new timer alone.  The two are not
    equivalent, and after the double start two sampler timers run. *)
Theorem C2_second_start_leaks_first_timer :
  forall (now_at : nat -> Z) (random_at : nat -> Q) (w : World) (t : Timer)
         (s : MediaStream),
    timers (env w) = [t] ->
    intervalRef (hook w) = Some (tm_id t) ->
    loading (env w) = [] ->
    let k := S (next_id (env w)) in
    let twice := run now_at random_at [Start (Some s); LoadedMetadata k] w in
    let once := run now_at random_at [Stop; Start (Some s); LoadedMetadata k] w in
    timers (env twice) = [t; mkTimer (S k) (current_render w) s] /\
    intervalRef (hook twice) = Some (S k) /\
    timers (env once) = [mkTimer (S k) (mkRender (mode (hook w)) false) s] /\
    intervalRef (hook once) = Some (S k).
Proof.
  intros now_at random_at w t s Ht Hh Hl.
  open_world w. cbn in Ht, Hh, Hl. subst tms ir ld.
  destruct p; cbv -[Nat.eqb Z.add]; rewrite ?Nat.eqb_refl;
    cbv -[Nat.eqb Z.add]; rewrite ?Nat.eqb_refl; cbv -[Nat.eqb Z.add];
    repeat split; reflexivity.
Qed.

Lemma C2_second_start_leaks_first_timer_witness :
  (timers (env running_once) = [timer3] /\
   intervalRef (hook running_once) = Some (tm_id timer3) /\
   loading (env running_once) = []) /\
  timers (env (run clock0 dice0 [Start (Some camera); LoadedMetadata 4]
                   running_once)) = [timer3; timer5] /\
  timers (env (run clock0 dice0
                   [Stop; Start (Some camera); LoadedMetadata 4]
                   running_once)) = [mkTimer 5%nat (mkRender wasm false) camera].
Proof.
  split.
  - repeat split; reflexivity.
  - pose proof (C2_second_start_leaks_first_timer clock0 dice0 running_once
                  timer3 camera eq_refl eq_refl eq_refl) as H.
    cbv zeta in H. destruct H as [H1 [_ [H3 _]]]. split.
    + exact H1.
    + exact H3.
Defined.

(** ** Backpressure *)

(** C3, as the code has it: there is no busy flag.  A tick of a
    registered timer whose closure has [isProcessing] true dispatches its
    frame however many submissions are outstanding: in [wasm] mode with a
    worker the submissions in flight to that worker grow by one, in
    [server] mode the requests in flight grow by one. *)
Theorem C3_every_tick_is_dispatched :
  forall (now_at : nat -> Z) (random_at : nat -> Q) (w : World) (t : TimerId)
         (tm : Timer) (px : Pixels),
    find_timer t w = Some tm ->
    r_isProcessing (tm_closure tm) = true ->
    let w' := step now_at random_at w (Tick t (Some px)) in
    match r_mode (tm_closure tm), workerRef (hook w) with
    | wasm, Some wk => in_flight_local wk w' = S (in_flight_local wk w)
    | wasm, None => w' = on_env (with_canvases (S (canvases (env w)))) w
    | server, _ => in_flight_remote w' = S (in_flight_remote w)
    end.
Proof.
  intros now_at random_at w t tm px Hfind Hcl w'. subst w'.
  destruct (r_mode (tm_closure tm)) eqn:Hmode.
  - destruct (workerRef (hook w)) as [wk|] eqn:Hwk.
    + rewrite (tick_wasm now_at random_at w t tm wk px Hfind Hcl Hmode Hwk).
      destruct w as [h b].
      apply (in_flight_local_snoc b h h wk).
    + unfold step, exec, dispatch, handler, bind, gets.
      rewrite Hfind. unfold processFrame. rewrite Hcl, Hmode.
      open_world w. cbn in Hwk. subst wr. cbn.
      rewrite Bool.eqb_reflx. reflexivity.
  - rewrite (tick_server now_at random_at w t tm px Hfind Hcl Hmode).
    unfold in_flight_remote. cbn. rewrite length_app. cbn. lia.
Qed.

Lemma C3_every_tick_is_dispatched_witness :
  (find_timer 5 restarted_wasm = Some timer5 /\
   r_isProcessing (tm_closure timer5) = true) /\
  in_flight_local 1
    (step clock0 dice0 restarted_wasm (Tick 5 (Some frame0))) =
  S (in_flight_local 1 restarted_wasm).
Proof.
  split.
  - split; reflexivity.
  - exact (C3_every_tick_is_dispatched clock0 dice0 restarted_wasm 5%nat
             timer5 frame0 eq_refl eq_refl).
Defined.

(** C3, as the spec states it, fails: two ticks of the sampler with no
    worker reply in between leave two submissions in flight to the one
    worker while the session is running; the second frame was not
    dropped. *)
Lemma C3_two_in_flight :
  let w := run clock0 dice0 two_ticks_wasm (mount clock0 wasm) in
  isProcessing (hook w) = true /\
  workerRef (hook w) = Some 1%nat /\
  in_flight_local 1 w = 2%nat /\
  map (fun p => imageData (snd p)) (outbox (env w)) = [frame0; frame1] /\
  ~ (in_flight_local 1 w <= 1)%nat.
Proof.
  cbv zeta. repeat split; try reflexivity.
  vm_compute. intros H. inversion H as [|n H1]. inversion H1.
Qed.

(** ** Downsampling *)

(** C8, as the code has it: every tick of a registered timer whose
    closure has [isProcessing] true creates a new canvas, and the frame
    it dispatches is 320 by 240: the worker request carries [width] 320
    and [height] 240 with the buffer read from the canvas, and the image
    of the server request is that 320 by 240 canvas. *)
Theorem C8_new_canvas_per_frame_320x240 :
  forall (now_at : nat -> Z) (random_at : nat -> Q) (w : World) (t : TimerId)
         (tm : Timer) (surface : option Pixels),
    find_timer t w = Some tm ->
    r_isProcessing (tm_closure tm) = true ->
    let w' := step now_at random_at w (Tick t surface) in
    canvases (env w') = S (canvases (env w)) /\
    match surface, r_mode (tm_closure tm), workerRef (hook w) with
    | Some px, wasm, Some wk =>
        exists ts fid,
          outbox (env w') =
          outbox (env w) ++ [(wk, mkWorkerRequest px 320 240 ts fid)]
    | Some px, server, _ =>
        exists id ts,
          fetches (env w') =
          fetches (env w) ++ [(id, mkFormData (mkCanvas 320 240 px) ts)]
    | _, _, _ =>
        outbox (env w') = outbox (env w) /\ fetches (env w') = fetches (env w)
    end.
Proof.
  intros now_at random_at w t tm surface Hfind Hcl w'. subst w'.
  destruct surface as [px|].
  - destruct (r_mode (tm_closure tm)) eqn:Hmode.
    + destruct (workerRef (hook w)) as [wk|] eqn:Hwk.
      * rewrite (tick_wasm now_at random_at w t tm wk px Hfind Hcl Hmode Hwk).
        cbn. split; [reflexivity|]. eexists. eexists. reflexivity.
      * unfold step, exec, dispatch, handler, bind, gets.
        rewrite Hfind. unfold processFrame. rewrite Hcl, Hmode.
        open_world w. cbn in Hwk. subst wr. cbn.
        rewrite Bool.eqb_reflx. cbn. repeat split; reflexivity.
    + rewrite (tick_server now_at random_at w t tm px Hfind Hcl Hmode).
      cbn. split; [reflexivity|]. eexists. eexists. reflexivity.
  - unfold step, exec, dispatch, handler, bind, gets.
    rewrite Hfind. unfold processFrame. rewrite Hcl.
    open_world w. cbn. rewrite Bool.eqb_reflx. cbn.
    repeat split; reflexivity.
Qed.

Lemma C8_new_canvas_per_frame_320x240_witness :
  (find_timer 4 restarted_server = Some timer4 /\
   r_isProcessing (tm_closure timer4) = true) /\
  canvases (env (step clock0 dice0 restarted_server (Tick 4 (Some frame0))))
  = S (canvases (env restarted_server)).
Proof.
  split.
  - split; reflexivity.
  - exact (proj1 (C8_new_canvas_per_frame_320x240 clock0 dice0
                    restarted_server 4%nat timer4 (Some frame0)
                    eq_refl eq_refl)).
Defined.

(** C8, as the spec states it, fails in its second half: two sampled
    frames, both sent at 320 by 240, and two canvases created for them;
    no drawing surface is reused. *)
Lemma C8_two_frames_two_canvases :
  let w := run clock0 dice0 two_ticks_wasm (mount clock0 wasm) in
  map (fun p => (width (snd p), height (snd p))) (outbox (env w)) =
    [(320, 240); (320, 240)] /\
  canvases (env w) = 2%nat /\
  ~ (canvases (env w) <= 1)%nat.
Proof.
  cbv zeta. repeat split; try reflexivity.
  vm_compute. intros H. inversion H as [|n H1]. inversion H1.
Qed.

(** ** The worker protocol *)

(** C9: a frame sent to the worker is the message
    [{ imageData, width, height, timestamp, frameId }] with the buffer
    read from the canvas, 320, 240 and two successive readings of
    [Date.now()], appended to what was posted before; and a message
    [{ detections, processingTime }] of the current worker makes its
    [detections] the published ones, the other cells staying as they
    were. *)
Theorem C9_worker_request_and_response :
  forall (now_at : nat -> Z) (random_at : nat -> Q) (w : World) (t : TimerId)
         (tm : Timer) (wk : WorkerId) (px : Pixels) (data : WorkerResponse),
    find_timer t w = Some tm ->
    r_isProcessing (tm_closure tm) = true ->
    r_mode (tm_closure tm) = wasm ->
    workerRef (hook w) = Some wk ->
    let sent := step now_at random_at w (Tick t (Some px)) in
    let answered := step now_at random_at sent (WorkerMessage wk data) in
    outbox (env sent) =
      outbox (env w) ++
      [(wk, {| imageData := px; width := 320; height := 240;
               timestamp := now_at (clock_calls (env w));
               frameId := now_at (S (clock_calls (env w))) |})] /\
    detections (hook answered) = resp_detections data /\
    hook answered = with_detections (resp_detections data) (hook w).
Proof.
  intros now_at random_at w t tm wk px data Hfind Hcl Hmode Hwk sent answered.
  assert (Hsent : outbox (env sent) =
            outbox (env w) ++
            [(wk, mkWorkerRequest px 320 240 (now_at (clock_calls (env w)))
                    (now_at (S (clock_calls (env w)))))] /\
          hook sent = hook w).
  { subst sent.
    rewrite (tick_wasm now_at random_at w t tm wk px Hfind Hcl Hmode Hwk).
    split; reflexivity. }
  destruct Hsent as [Hout Hhook].
  assert (Hpub : hook answered = with_detections (resp_detections data) (hook w)).
  { subst answered. rewrite <- Hhook.
    apply worker_message_published.
    - rewrite Hhook. exact Hwk.
    - unfold in_flight_local. rewrite Hout, filter_app, length_app.
      cbn [filter]. unfold addressed_to at 2. cbn [fst].
      rewrite Nat.eqb_refl. cbn [List.length]. lia. }
  split; [exact Hout|]. split; [|exact Hpub].
  rewrite Hpub. reflexivity.
Qed.

Lemma C9_worker_request_and_response_witness :
  (find_timer 5 restarted_wasm = Some timer5 /\
   r_isProcessing (tm_closure timer5) = true /\
   r_mode (tm_closure timer5) = wasm /\
   workerRef (hook restarted_wasm) = Some 1%nat) /\
  outbox (env (step clock0 dice0 restarted_wasm (Tick 5 (Some frame0)))) =
    [(1%nat, mkWorkerRequest frame0 320 240 1700000000012 1700000000013)] /\
  detections
    (hook (step clock0 dice0
             (step clock0 dice0 restarted_wasm (Tick 5 (Some frame0)))
             (WorkerMessage 1 reply0))) = [person0].
Proof.
  split.
  - repeat split; reflexivity.
  - pose proof (C9_worker_request_and_response clock0 dice0 restarted_wasm
                  5%nat timer5 1%nat frame0 reply0
                  eq_refl eq_refl eq_refl eq_refl) as H.
    cbv zeta in H. destruct H as [H1 [H2 _]]. split.
    + exact H1.
    + exact H2.
Defined.

(** ** Completions after stop *)

Section IdleInvariant.

Variable now_at : nat -> Z.
Variable random_at : nat -> Q.

Lemma tick_keeps_hook (w : World) (t : TimerId) (surface : option Pixels) :
  hook (step now_at random_at w (Tick t surface)) = hook w.
Proof.
  destruct (find_timer t w) as [tm|] eqn:Hfind.
  - unfold step, exec, dispatch, handler, bind, gets.
    rewrite Hfind. unfold processFrame.
    destruct (r_isProcessing (tm_closure tm)), surface as [px|],
      (r_mode (tm_closure tm)); open_world w; destruct wr; cbn;
      rewrite Bool.eqb_reflx; reflexivity.
  - rewrite tick_cleared_timer by exact Hfind. reflexivity.
Qed.

Lemma mount_idle_is_empty (m : DetectionMode) :
  idle_is_empty (mount now_at m).
Proof. intros _. destruct m; reflexivity. Qed.

(** Every event that is not the completion of a submission keeps
    "not processing implies no detections". *)
Lemma idle_is_empty_preserved (w : World) (ev : Event) :
  is_completion ev = false ->
  idle_is_empty w ->
  idle_is_empty (step now_at random_at w ev).
Proof.
  intros Hev Hinv. destruct ev as [stream|k| |t surface|wk data|f o|m];
    try discriminate Hev.
  - destruct stream as [s|].
    + intros Hidle.
      destruct (start_some now_at random_at w s) as [Hp _].
      cbv zeta in Hp. rewrite Hp in Hidle. discriminate.
    + unfold step, exec, dispatch, handler, bind, gets. cbn.
      rewrite Bool.eqb_reflx. exact Hinv.
  - destruct (find_pending k w) as [p|] eqn:Hfind.
    + destruct (loaded_registers_timer now_at random_at w k p Hfind)
        as [Hh _].
      unfold idle_is_empty. rewrite Hh. exact Hinv.
    + unfold step, exec, dispatch, handler, bind, gets.
      rewrite Hfind. cbn. rewrite Bool.eqb_reflx. exact Hinv.
  - intros _. open_world w.
    unfold step, exec, dispatch, handler, stopDetection, bind, gets.
    destruct p, ir; reflexivity.
  - unfold idle_is_empty. rewrite tick_keeps_hook. exact Hinv.
  - unfold idle_is_empty in *. open_world w. cbn in Hinv.
    unfold step, exec, dispatch, handler, rerender, bind, gets.
    destruct m0, m, wr; cbn; rewrite ?Bool.eqb_reflx; cbn; exact Hinv.
Qed.

End IdleInvariant.



(** C6, evaluated on the code: a frame is posted to the worker, the
    session is stopped while that submission is in flight, and the
    worker's reply arrives afterwards.  It is not discarded:
    [detections] goes from empty to the reply's detections while
    [isProcessing] stays false. *)
Theorem C6_late_reply_is_published :
  let stopped :=
    run clock0 dice0 (restart_wasm ++ [Tick 5 (Some frame0); Stop])
        (mount clock0 wasm) in
  let late := step clock0 dice0 stopped (WorkerMessage 1 reply0) in
  isProcessing (hook stopped) = false /\
  detections (hook stopped) = [] /\
  in_flight_local 1 stopped = 1%nat /\
  isProcessing (hook late) = false /\
  detections (hook late) = [person0] /\
  late = run clock0 dice0 late_reply_wasm (mount clock0 wasm).
Proof.
  cbv zeta.
  split; [vm_compute; reflexivity|].
  split; [vm_compute; reflexivity|].
  split; [vm_compute; reflexivity|].
  split; [vm_compute; reflexivity|].
  split; vm_compute; reflexivity.
Qed.

(** C10, evaluated on the code: the invariant "not processing implies
    no detections" holds when the session has been stopped with a request
    in flight, and the settlement of that request (here a transport
    failure, which publishes the mock detection) breaks it. *)
Theorem C10_late_completion_breaks_idle_is_empty :
  let stopped := run clock0 dice0 stopped_in_flight_server (mount clock0 server) in
  let late := run clock0 dice0 late_failure_server (mount clock0 server) in
  late = step clock0 dice0 stopped (FetchSettled 5 TransportFailure) /\
  idle_is_empty stopped /\
  in_flight_remote stopped = 1%nat /\
  isProcessing (hook late) = false /\
  List.length (detections (hook late)) = 1%nat /\
  ~ idle_is_empty late.
Proof.
  cbv zeta. split; [vm_compute; reflexivity|].
  split; [intros _; vm_compute; reflexivity|].
  split; [vm_compute; reflexivity|].
  split; [vm_compute; reflexivity|].
  split; [vm_compute; reflexivity|].
  unfold idle_is_empty. vm_compute. intros H.
  specialize (H eq_refl). discriminate H.
Qed.

(** ** The detections the hook builds *)

Section Built.

Variable now_at : nat -> Z.
Variable random_at : nat -> Q.
Hypothesis Hclock : clock_monotone now_at.
Hypothesis Hrandom : random_unit random_at.

Lemma clock_later (i j : nat) (a b : Z) :
  (i <= j)%nat -> a <= b -> now_at i + a <= now_at j + b.
Proof. intros Hij Hab. pose proof (Hclock i j Hij). lia. Qed.

Lemma clock_next (i j : nat) (b : Z) :
  (i <= j)%nat -> 0 <= b -> now_at i <= now_at j + b.
Proof. intros Hij Hb. pose proof (Hclock i j Hij). lia. Qed.

(** The mock detection of the [catch] block, read off the code. *)
Lemma mockDetections_run (w : World) :
  mockDetections now_at random_at w =
  (let r := random_calls (env w) in
   let c := clock_calls (env w) in
   [ mkDetection "person"
       (0.80 + random_at r * 0.15)%Q
       (0.15 + random_at (S r) * 0.1)%Q
       (0.1 + random_at (S (S r)) * 0.1)%Q
       (0.4 + random_at (S (S (S r))) * 0.1)%Q
       (0.8 + random_at (S (S (S (S r)))) * 0.1)%Q
       (now_at c) (now_at (S c)) (now_at (S (S c)) + 5)
       (now_at (S (S (S c))) + 35) ],
   on_env (with_clock_calls (4 + clock_calls (env w)))
     (on_env (with_random_calls (5 + random_calls (env w))) w)).
Proof. open_world w. reflexivity. Qed.

Lemma mockDetections_valid (w : World) :
  Forall valid_detection (fst (mockDetections now_at random_at w)).
Proof.
  rewrite mockDetections_run. cbn [fst].
  set (r := random_calls (env w)). set (c := clock_calls (env w)).
  destruct (Hrandom r) as [? ?].
  destruct (Hrandom (S r)) as [? ?].
  destruct (Hrandom (S (S r))) as [? ?].
  destruct (Hrandom (S (S (S r)))) as [? ?].
  destruct (Hrandom (S (S (S (S r))))) as [? ?].
  constructor; [|constructor].
  unfold valid_detection. cbn [score xmin ymin xmax ymax capture_ts recv_ts
                                inference_ts].
  repeat split; try lra.
  - apply clock_next; lia.
  - apply clock_later; lia.
Qed.

Lemma testDetections_valid (w : World) :
  Forall valid_detection (fst (testDetections now_at w)).
Proof.
  open_world w. cbn [testDetections bind Date_now ret fst env clock_calls
                     on_env with_clock_calls].
  repeat constructor; cbn [score xmin ymin xmax ymax capture_ts recv_ts
                            inference_ts]; try lra;
    solve [apply clock_next; lia | apply clock_later; lia].
Qed.

End Built.

Lemma clock0_monotone : clock_monotone clock0.
Proof. intros n m Hnm. unfold clock0. lia. Defined.

Lemma dice0_unit : random_unit dice0.
Proof. intros n. unfold dice0. split; [discriminate | reflexivity]. Defined.

(** ** Remote failures *)

(** C4, as the code has it: [processFrame] never throws past its
    [try]; when the request fails in transport, or the body of a
    successful response is not a JSON object, the [catch] block
    publishes the one-element mock batch, whose detection is valid under
    a clock that never goes back; a response that is not [ok] is only
    logged with [console.error], and the hook cells, [detections]
    included, stay as they were. *)
Theorem C4_remote_failure_paths :
  forall (now_at : nat -> Z) (random_at : nat -> Q),
    clock_monotone now_at ->
    random_unit random_at ->
    forall (w : World) (o : FetchOutcome),
      let result := processFrame_resume now_at random_at o w in
      fst result = Normal tt /\
      (enters_catch o = true ->
       detections (hook (snd result)) = fst (mockDetections now_at random_at w) /\
       List.length (detections (hook (snd result))) = 1%nat /\
       Forall valid_detection (detections (hook (snd result)))) /\
      (forall (status : Z) (body : JsonBody),
          o = Responded false status body ->
          hook (snd result) = hook w /\
          random_calls (env (snd result)) = random_calls (env w) /\
          console (env (snd result)) =
            console (env w) ++
            [ConsoleError "Server detection failed with status:"]).
Proof.
  intros now_at random_at Hclock Hrandom w o result.
  assert (Hcatch : forall (e : Exn) (w0 : World),
             let res := tryCatch (ret (Throw e))
                                 (fetch_catch now_at random_at) w0 in
             fst res = Normal tt /\
             detections (hook (snd res)) =
               fst (mockDetections now_at random_at w0)).
  { intros e w0. open_world w0. split; reflexivity. }
  assert (Hmock : forall w0 : World,
             List.length (fst (mockDetections now_at random_at w0)) = 1%nat).
  { intros w0. rewrite mockDetections_run. reflexivity. }
  assert (Hfallback : forall e : Exn,
             let res := tryCatch (ret (Throw e))
                                 (fetch_catch now_at random_at) w in
             fst res = Normal tt /\
             (detections (hook (snd res)) =
                fst (mockDetections now_at random_at w) /\
              List.length (detections (hook (snd res))) = 1%nat /\
              Forall valid_detection (detections (hook (snd res))))).
  { intros e. destruct (Hcatch e w) as [H1 H2]. cbv zeta in H1, H2 |- *.
    split; [exact H1|]. split; [exact H2|]. rewrite H2. split.
    - apply Hmock.
    - apply mockDetections_valid; assumption. }
  subst result. unfold processFrame_resume.
  destruct o as [ok status body|].
  - destruct ok.
    + destruct body as [res| |].
      * split; [open_world w; reflexivity|].
        split; [discriminate|]. intros st b Heq. discriminate Heq.
      * destruct (Hfallback NullDereference) as [H1 H2].
        split; [exact H1|]. split; [intros _; exact H2|].
        intros st b Heq. discriminate Heq.
      * destruct (Hfallback JsonRejected) as [H1 H2].
        split; [exact H1|]. split; [intros _; exact H2|].
        intros st b Heq. discriminate Heq.
    + split; [open_world w; reflexivity|].
      split; [destruct body; discriminate|].
      intros st b _. open_world w. repeat split; reflexivity.
  - destruct (Hfallback FetchRejected) as [H1 H2].
    split; [exact H1|]. split; [intros _; exact H2|].
    intros st b Heq. discriminate Heq.
Qed.

Lemma C4_remote_failure_paths_witness :
  (clock_monotone clock0 /\ random_unit dice0) /\
  fst (processFrame_resume clock0 dice0 TransportFailure
         (run clock0 dice0 stopped_in_flight_server (mount clock0 server)))
  = Normal tt.
Proof.
  split.
  - split; [exact clock0_monotone | exact dice0_unit].
  - exact (proj1 (C4_remote_failure_paths clock0 dice0 clock0_monotone
                    dice0_unit
                    (run clock0 dice0 stopped_in_flight_server
                         (mount clock0 server))
                    TransportFailure)).
Defined.

(** C4, as the spec states it, fails for a non-success response: with
    one request in flight and [detections] empty, the answer 500 leaves
    [detections] empty; no fallback batch is built (no call of
    [Math.random()]) and the hook cells are those of before. *)
Lemma C4_http_500_no_fallback :
  let before := run clock0 dice0 before_500_server (mount clock0 server) in
  let after := run clock0 dice0 http_500_server (mount clock0 server) in
  after = step clock0 dice0 before (FetchSettled 6 (Responded false 500 JsonNull)) /\
  in_flight_remote before = 1%nat /\
  in_flight_remote after = 0%nat /\
  detections (hook after) = [] /\
  hook after = hook before /\
  random_calls (env after) = 0%nat.
Proof.
  cbv zeta.
  split; [vm_compute; reflexivity|].
  split; [vm_compute; reflexivity|].
  split; [vm_compute; reflexivity|].
  split; [vm_compute; reflexivity|].
  split; vm_compute; reflexivity.
Qed.

(** ** What is published *)

Section Published.

Variable now_at : nat -> Z.
Variable random_at : nat -> Q.
Hypothesis Hclock : clock_monotone now_at.
Hypothesis Hrandom : random_unit random_at.

Lemma settle_keeps_valid (w : World) (o : FetchOutcome) :
  relayed_valid (FetchSettled 0 o) ->
  published_valid w ->
  published_valid (snd (processFrame_resume now_at random_at o w)).
Proof.
  intros Hrel Hinv. unfold published_valid in *.
  assert (Hcatch : forall e : Exn,
             Forall valid_detection
               (detections (hook (snd
                  (tryCatch (ret (Throw e)) (fetch_catch now_at random_at) w))))).
  { intros e.
    replace (detections (hook (snd
               (tryCatch (ret (Throw e)) (fetch_catch now_at random_at) w))))
      with (fst (mockDetections now_at random_at w))
      by (open_world w; reflexivity).
    apply mockDetections_valid; assumption. }
  unfold processFrame_resume.
  destruct o as [[|] status [res| |]|]; try apply Hcatch.
  - cbn in Hrel. open_world w. destruct res as [[l|] a b]; cbn.
    + exact Hrel.
    + constructor.
  - open_world w. exact Hinv.
  - open_world w. exact Hinv.
  - open_world w. exact Hinv.
Qed.

Lemma step_keeps_valid (w : World) (ev : Event) :
  relayed_valid ev ->
  published_valid w ->
  published_valid (step now_at random_at w ev).
Proof.
  intros Hrel Hinv. unfold published_valid in *.
  destruct ev as [stream|k| |t surface|wk data|f o|m].
  - destruct stream as [s|].
    + destruct (isProcessing (hook w)) eqn:Hp.
      * open_world w. cbn in Hp. subst p. exact Hinv.
      * replace (detections (hook (step now_at random_at w (Start (Some s)))))
          with (fst (testDetections now_at w))
          by (open_world w; cbn in Hp; subst p; reflexivity).
        apply testDetections_valid; assumption.
    + unfold step, exec, dispatch, handler, bind, gets. cbn.
      rewrite Bool.eqb_reflx. exact Hinv.
  - destruct (find_pending k w) as [p|] eqn:Hfind.
    + destruct (loaded_registers_timer now_at random_at w k p Hfind)
        as [Hh _].
      rewrite Hh. exact Hinv.
    + unfold step, exec, dispatch, handler, bind, gets.
      rewrite Hfind. cbn. rewrite Bool.eqb_reflx. exact Hinv.
  - open_world w.
    unfold step, exec, dispatch, handler, stopDetection, bind, gets.
    destruct p, ir; constructor.
  - rewrite tick_keeps_hook. exact Hinv.
  - destruct (workerRef (hook w)) as [wk'|] eqn:Hwk.
    + destruct (Nat.eqb wk' wk) eqn:Heq.
      * apply Nat.eqb_eq in Heq. subst wk'.
        destruct (in_flight_local wk w) as [|n] eqn:Hn.
        -- unfold step, exec, dispatch, handler, deliver_message, bind, gets.
           rewrite Hwk, Hn. cbn. rewrite Bool.eqb_reflx. exact Hinv.
        -- rewrite worker_message_published by (assumption || lia).
           exact Hrel.
      * unfold step, exec, dispatch, handler, deliver_message, bind, gets.
        rewrite Hwk, Heq.
        destruct (in_flight_local wk w); cbn; rewrite Bool.eqb_reflx;
          exact Hinv.
    + unfold step, exec, dispatch, handler, deliver_message, bind, gets.
      rewrite Hwk. cbn. rewrite Bool.eqb_reflx. exact Hinv.
  - destruct (find_fetch f w) as [q|] eqn:Hfind.
    + set (w1 := on_env (fun b =>
                   with_fetches
                     (remove_first (fun p => Nat.eqb (fst p) f) (fetches b)) b) w).
      replace (detections (hook (step now_at random_at w (FetchSettled f o))))
        with (detections (hook (snd (processFrame_resume now_at random_at o w1)))).
      * apply settle_keeps_valid.
        -- exact Hrel.
        -- subst w1. open_world w. exact Hinv.
      * unfold step, exec, dispatch, handler, bind, gets.
        rewrite Hfind. subst w1. clear Hfind. open_world w.
        destruct o as [[|] status [res| |]|]; cbn;
          rewrite Bool.eqb_reflx; reflexivity.
    + unfold step, exec, dispatch, handler, bind, gets.
      rewrite Hfind. cbn. rewrite Bool.eqb_reflx. exact Hinv.
  - open_world w.
    unfold step, exec, dispatch, handler, rerender, bind, gets.
    destruct m0, m, wr; cbn; rewrite ?Bool.eqb_reflx; cbn; exact Hinv.
Qed.

(** Whatever the events, if the worker and the endpoint send valid
    detections only, what the hook publishes is valid. *)
Lemma published_detections_valid (evs : list Event) (m : DetectionMode) :
  Forall relayed_valid evs ->
  published_valid (run now_at random_at evs (mount now_at m)).
Proof.
  assert (Hgen : forall (l : list Event) (w : World),
             Forall relayed_valid l -> published_valid w ->
             published_valid (run now_at random_at l w)).
  { induction l as [|ev l IH]; intros w Hl Hw.
    - exact Hw.
    - inversion Hl as [|ev' l' Hev Hl']; subst.
      cbn [run fold_left]. apply IH; [exact Hl'|].
      apply step_keeps_valid; assumption. }
  intros Hevs. apply Hgen; [exact Hevs|].
  unfold published_valid. destruct m; constructor.
Qed.

End Published.

(** C5, as the code has it: with a clock that never goes back and
    [Math.random()] in [[0, 1)], every [Detection] the hook builds, the
    mock detection of the server fallback and the three test detections
    of the [isProcessing] effect, has its score and its four coordinates
    in [[0, 1]], [xmin < xmax], [ymin < ymax] and
    [capture_ts <= recv_ts <= inference_ts]; and if moreover every
    detection the worker and the endpoint send is such, so is every
    detection published after any sequence of events. *)
Theorem C5_detections_valid_under_clock_and_collaborators :
  forall (now_at : nat -> Z) (random_at : nat -> Q),
    clock_monotone now_at ->
    random_unit random_at ->
    (forall w : World,
        Forall valid_detection (fst (mockDetections now_at random_at w)) /\
        Forall valid_detection (fst (testDetections now_at w))) /\
    (forall (evs : list Event) (m : DetectionMode),
        Forall relayed_valid evs ->
        Forall valid_detection
          (detections (hook (run now_at random_at evs (mount now_at m))))).
Proof.
  intros now_at random_at Hclock Hrandom. split.
  - intros w. split.
    + apply mockDetections_valid; assumption.
    + apply testDetections_valid; assumption.
  - intros evs m Hevs.
    exact (published_detections_valid now_at random_at Hclock Hrandom
             evs m Hevs).
Qed.

Lemma C5_detections_valid_under_clock_and_collaborators_witness :
  (clock_monotone clock0 /\ random_unit dice0) /\
  Forall valid_detection (fst (mockDetections clock0 dice0 (mount clock0 server))) /\
  Forall valid_detection (fst (testDetections clock0 (mount clock0 server))).
Proof.
  split.
  - split; [exact clock0_monotone | exact dice0_unit].
  - exact (proj1 (C5_detections_valid_under_clock_and_collaborators
                    clock0 dice0 clock0_monotone dice0_unit)
                 (mount clock0 server)).
Defined.

(** C5, as the spec states it, fails twice.  The reply of the worker is
    published as it comes: a detection with score 2 is published.  And
    the timestamps of the hook's own detections are separate readings of
    the clock: when the clock is set back between them, the first test
    detection has [capture_ts] after [recv_ts]. *)
Lemma C5_invalid_detections_published :
  (let w := run clock0 dice0 invalid_reply_wasm (mount clock0 wasm) in
   detections (hook w) = [bad_detection] /\
   ~ valid_detection bad_detection) /\
  (let w := step clock_back dice0 (mount clock_back wasm)
                 (Start (Some camera)) in
   map (fun d => (capture_ts d, recv_ts d)) (detections (hook w)) =
     [(1699999999900, 1699999999810); (1699999999500, 1699999999408);
      (1699999999100, 1699999999012)] /\
   ~ Forall valid_detection (detections (hook w))).
Proof.
  cbv zeta. split.
  - split; [vm_compute; reflexivity|].
    unfold valid_detection, bad_detection. cbn.
    intros [[_ Hscore] _]. revert Hscore. vm_compute. intros H. apply H.
    reflexivity.
  - split; [vm_compute; reflexivity|].
    intros H. inversion H as [|d l Hd Hl Heq]. revert Heq Hd.
    vm_compute. intros Heq. inversion Heq. subst d.
    unfold valid_detection. cbn.
    intros [_ [_ [_ [_ [_ [_ [_ [Hts _]]]]]]]].
    revert Hts. vm_compute. intros Hts. apply Hts. reflexivity.
Qed.

(** * The hook as a whole *)

(** ** Steps, event by event *)

Section Steps.

Variable now_at : nat -> Z.
Variable random_at : nat -> Q.

Lemma run_preserves (P : World -> Prop) :
  (forall w ev, P w -> P (step now_at random_at w ev)) ->
  forall evs w, P w -> P (run now_at random_at evs w).
Proof.
  intros Hstep evs. induction evs as [|ev l IH]; intros w Hw.
  - exact Hw.
  - cbn [run fold_left]. apply IH. apply Hstep. exact Hw.
Qed.

Lemma run_app (l1 l2 : list Event) (w : World) :
  run now_at random_at (l1 ++ l2) w =
  run now_at random_at l2 (run now_at random_at l1 w).
Proof. unfold run. apply fold_left_app. Qed.

Lemma step_start_none (w : World) :
  step now_at random_at w (Start None) = w.
Proof.
  unfold step, exec, dispatch, handler, bind, gets. cbn.
  rewrite Bool.eqb_reflx. reflexivity.
Qed.

Lemma step_start_idle (w : World) (s : MediaStream) :
  isProcessing (hook w) = false ->
  step now_at random_at w (Start (Some s)) =
  mkWorld
    (mkHook (mode (hook w)) (fst (testDetections now_at w)) true
            (workerRef (hook w)) (Some s) (intervalRef (hook w)))
    (mkBrowser (timers (env w))
       (loading (env w) ++
        [mkPendingStart (S (next_id (env w))) (current_render w) s])
       (outbox (env w)) (fetches (env w)) (canvases (env w))
       (S (next_id (env w))) (12 + clock_calls (env w))
       (random_calls (env w))
       (console (env w) ++ [ConsoleLog "Test bounding boxes set:"])).
Proof.
  intros Hp. open_world w. cbn in Hp. subst p. reflexivity.
Qed.

Lemma step_start_running (w : World) (s : MediaStream) :
  isProcessing (hook w) = true ->
  step now_at random_at w (Start (Some s)) =
  mkWorld
    (with_streamRef (Some s) (hook w))
    (mkBrowser (timers (env w))
       (loading (env w) ++
        [mkPendingStart (S (next_id (env w))) (current_render w) s])
       (outbox (env w)) (fetches (env w)) (canvases (env w))
       (S (next_id (env w))) (clock_calls (env w))
       (random_calls (env w)) (console (env w))).
Proof.
  intros Hp. open_world w. cbn in Hp. subst p. reflexivity.
Qed.

Lemma step_loaded (w : World) (k : nat) (p : PendingStart) :
  find_pending k w = Some p ->
  step now_at random_at w (LoadedMetadata k) =
  mkWorld
    (with_intervalRef (Some (S (next_id (env w)))) (hook w))
    (mkBrowser
       (timers (env w) ++
        [mkTimer (S (next_id (env w))) (ps_closure p) (ps_video p)])
       (remove_first (fun q => Nat.eqb (ps_id q) k) (loading (env w)))
       (outbox (env w)) (fetches (env w)) (canvases (env w))
       (S (next_id (env w))) (clock_calls (env w))
       (random_calls (env w))
       (console (env w) ++ [ConsoleLog "Object detection started"])).
Proof.
  intros Hfind.
  unfold step, exec, dispatch, handler, bind, gets.
  rewrite Hfind. open_world w. cbn.
  rewrite Bool.eqb_reflx. reflexivity.
Qed.

Lemma step_loaded_unknown (w : World) (k : nat) :
  find_pending k w = None ->
  step now_at random_at w (LoadedMetadata k) = w.
Proof.
  intros Hfind.
  unfold step, exec, dispatch, handler, bind, gets.
  rewrite Hfind. cbn. rewrite Bool.eqb_reflx. reflexivity.
Qed.

Lemma step_stop (w : World) :
  step now_at random_at w Stop =
  mkWorld
    (mkHook (mode (hook w)) [] false (workerRef (hook w)) None None)
    (mkBrowser
       (match intervalRef (hook w) with
        | Some id =>
            filter (fun t => negb (Nat.eqb (tm_id t) id)) (timers (env w))
        | None => timers (env w)
        end)
       (loading (env w)) (outbox (env w)) (fetches (env w))
       (canvases (env w)) (next_id (env w)) (clock_calls (env w))
       (random_calls (env w))
       (console (env w) ++ [ConsoleLog "Object detection stopped"])).
Proof.
  open_world w.
  unfold step, exec, dispatch, handler, stopDetection, bind, gets.
  destruct p, ir; reflexivity.
Qed.

(** A frame that is drawn and goes nowhere: no 2D context, or [wasm]
    closure and no worker. *)
Lemma step_tick_dropped (w : World) (t : TimerId) (tm : Timer)
      (surface : option Pixels) :
  find_timer t w = Some tm ->
  r_isProcessing (tm_closure tm) = true ->
  surface = None \/
  (r_mode (tm_closure tm) = wasm /\ workerRef (hook w) = None) ->
  step now_at random_at w (Tick t surface) =
  on_env (with_canvases (S (canvases (env w)))) w.
Proof.
  intros Hfind Hcl Hwhy.
  unfold step, exec, dispatch, handler, bind, gets.
  rewrite Hfind. unfold processFrame. rewrite Hcl.
  destruct Hwhy as [->|[Hmode Hwk]].
  - open_world w. cbn. rewrite Bool.eqb_reflx. reflexivity.
  - rewrite Hmode. open_world w. cbn in Hwk. subst wr.
    destruct surface; cbn; rewrite Bool.eqb_reflx; reflexivity.
Qed.

Lemma step_message_delivered (w : World) (wk : WorkerId)
      (data : WorkerResponse) :
  workerRef (hook w) = Some wk ->
  (0 < in_flight_local wk w)%nat ->
  step now_at random_at w (WorkerMessage wk data) =
  mkWorld
    (with_detections (resp_detections data) (hook w))
    (mkBrowser (timers (env w)) (loading (env w))
       (remove_first (addressed_to wk) (outbox (env w)))
       (fetches (env w)) (canvases (env w)) (next_id (env w))
       (clock_calls (env w)) (random_calls (env w))
       (console (env w) ++ [ConsoleLog "WASM detection completed"])).
Proof.
  intros Hwk Hn.
  unfold step, exec, dispatch, handler, deliver_message, bind, gets.
  rewrite Hwk.
  destruct (in_flight_local wk w) as [|n] eqn:E; [inversion Hn|].
  rewrite Nat.eqb_refl. open_world w. cbn.
  rewrite Bool.eqb_reflx. reflexivity.
Qed.

Lemma step_message_ignored (w : World) (wk : WorkerId)
      (data : WorkerResponse) :
  workerRef (hook w) <> Some wk \/ in_flight_local wk w = 0%nat ->
  step now_at random_at w (WorkerMessage wk data) = w.
Proof.
  intros Hwhy.
  unfold step, exec, dispatch, handler, deliver_message, bind, gets.
  destruct (workerRef (hook w)) as [wk'|] eqn:Hwk.
  - destruct (in_flight_local wk w) as [|n] eqn:Hn.
    + cbn. rewrite Bool.eqb_reflx. reflexivity.
    + destruct (Nat.eqb wk' wk) eqn:Heq.
      * apply Nat.eqb_eq in Heq. subst wk'.
        destruct Hwhy as [Hne|Hz]; [congruence|discriminate].
      * cbn. rewrite Bool.eqb_reflx. reflexivity.
  - cbn. rewrite Bool.eqb_reflx. reflexivity.
Qed.

(** What [processFrame] does once its request has settled. *)
Lemma resume_published (w : World) (status : Z) (result : ServerResult) :
  processFrame_resume now_at random_at
    (Responded true status (JsonObject result)) w =
  (Normal tt,
   mkWorld (with_detections (published_of result) (hook w))
     (with_console
        (console (env w) ++ [ConsoleLog "Server detection completed"])
        (env w))).
Proof. open_world w. reflexivity. Qed.

Lemma resume_not_ok (w : World) (status : Z) (body : JsonBody) :
  processFrame_resume now_at random_at (Responded false status body) w =
  (Normal tt,
   on_env (fun b =>
     with_console
       (console b ++ [ConsoleError "Server detection failed with status:"])
       b) w).
Proof. open_world w. reflexivity. Qed.

Lemma resume_fallback (w : World) (o : FetchOutcome) :
  enters_catch o = true ->
  processFrame_resume now_at random_at o w =
  (Normal tt,
   mkWorld
     (with_detections (fst (mockDetections now_at random_at w)) (hook w))
     (mkBrowser (timers (env w)) (loading (env w)) (outbox (env w))
        (fetches (env w)) (canvases (env w)) (next_id (env w))
        (4 + clock_calls (env w)) (5 + random_calls (env w))
        (console (env w) ++ [ConsoleError "Server detection failed:"]))).
Proof.
  intros Ho. open_world w.
  destruct o as [[|] status [res| |]|]; try discriminate Ho; reflexivity.
Qed.

Lemma step_settled (w : World) (f : FetchId) (o : FetchOutcome)
      (q : FetchId * FormData) :
  find_fetch f w = Some q ->
  step now_at random_at w (FetchSettled f o) =
  snd (processFrame_resume now_at random_at o
         (on_env (fun b =>
            with_fetches
              (remove_first (fun p => Nat.eqb (fst p) f) (fetches b)) b) w)).
Proof.
  intros Hfind.
  unfold step, exec, dispatch, handler, bind, gets.
  rewrite Hfind. clear Hfind. open_world w.
  destruct o as [[|] status [res| |]|]; cbn;
    rewrite Bool.eqb_reflx; reflexivity.
Qed.

Lemma step_settled_unknown (w : World) (f : FetchId) (o : FetchOutcome) :
  find_fetch f w = None ->
  step now_at random_at w (FetchSettled f o) = w.
Proof.
  intros Hfind.
  unfold step, exec, dispatch, handler, bind, gets.
  rewrite Hfind. cbn. rewrite Bool.eqb_reflx. reflexivity.
Qed.

Lemma step_rerender_same (w : World) :
  step now_at random_at w (Rerender (mode (hook w))) = w.
Proof.
  open_world w.
  unfold step, exec, dispatch, handler, rerender, bind, gets.
  destruct m; cbn; rewrite Bool.eqb_reflx; reflexivity.
Qed.

Lemma step_rerender_to_server (w : World) :
  mode (hook w) = wasm ->
  step now_at random_at w (Rerender server) =
  mkWorld
    (with_mode server (with_workerRef None (hook w)))
    (match workerRef (hook w) with
     | Some wk =>
         with_outbox
           (filter (fun p => negb (addressed_to wk p)) (outbox (env w)))
           (env w)
     | None => env w
     end).
Proof.
  intros Hm. open_world w. cbn in Hm. subst m.
  unfold step, exec, dispatch, handler, rerender, bind, gets.
  destruct wr; cbn; rewrite Bool.eqb_reflx; reflexivity.
Qed.

Lemma step_rerender_to_wasm (w : World) :
  mode (hook w) = server ->
  step now_at random_at w (Rerender wasm) =
  mkWorld
    (with_mode wasm (with_workerRef (Some (S (next_id (env w)))) (hook w)))
    (with_next_id (S (next_id (env w)))
       (match workerRef (hook w) with
        | Some wk =>
            with_outbox
              (filter (fun p => negb (addressed_to wk p)) (outbox (env w)))
              (env w)
        | None => env w
        end)).
Proof.
  intros Hm. open_world w. cbn in Hm. subst m.
  unfold step, exec, dispatch, handler, rerender, bind, gets.
  destruct wr; cbn; rewrite Bool.eqb_reflx; reflexivity.
Qed.

End Steps.


(** ** Lists *)

Lemma Forall_remove_first {A : Type} (P : A -> Prop) (f : A -> bool)
      (l : list A) :
  Forall P l -> Forall P (remove_first f l).
Proof.
  induction 1 as [|x l Hx Hl IH]; cbn; [constructor|].
  destruct (f x); [exact Hl|]. constructor; assumption.
Qed.

Lemma Forall_filter_keep {A : Type} (P : A -> Prop) (f : A -> bool)
      (l : list A) :
  Forall P l -> Forall P (filter f l).
Proof.
  induction 1 as [|x l Hx Hl IH]; cbn; [constructor|].
  destruct (f x); [constructor; assumption|exact IH].
Qed.

Lemma find_snoc_fresh {A : Type} (f : A -> bool) (l : list A) (x : A) :
  find f l = None -> f x = true -> find f (l ++ [x]) = Some x.
Proof.
  intros Hl Hx. induction l as [|y l IH]; cbn in *.
  - rewrite Hx. reflexivity.
  - destruct (f y); [discriminate|]. apply IH. exact Hl.
Qed.

Lemma find_remove_first_other {A : Type} (f g : A -> bool) (l : list A) :
  (forall x, f x = true -> g x = false) ->
  find f (remove_first g l) = find f l.
Proof.
  intros Hfg. induction l as [|y l IH]; cbn; [reflexivity|].
  destruct (g y) eqn:Hg.
  - destruct (f y) eqn:Hf; [|reflexivity].
    rewrite (Hfg y Hf) in Hg. discriminate.
  - cbn. rewrite IH. reflexivity.
Qed.

Lemma length_remove_first_found {A : Type} (f : A -> bool) (l : list A)
      (x : A) :
  find f l = Some x -> List.length l = S (List.length (remove_first f l)).
Proof.
  induction l as [|y l IH]; cbn; [discriminate|].
  destruct (f y); [reflexivity|]. intros H. cbn. rewrite (IH H). reflexivity.
Qed.

Section Whole.

Variable now_at : nat -> Z.
Variable random_at : nat -> Q.




(** Ticks and completions leave the session cells alone. *)
Lemma step_keeps_session (w : World) (ev : Event) :
  match ev with
  | Tick _ _ | WorkerMessage _ _ | FetchSettled _ _ =>
      session_cells (step now_at random_at w ev) = session_cells w
  | _ => True
  end.
Proof.
  destruct ev as [stream|k| |t surface|wk data|f o|m]; try exact I.
  - destruct (find_timer t w) as [tm|] eqn:Hfind;
      [|rewrite tick_cleared_timer by exact Hfind; reflexivity].
    destruct (r_isProcessing (tm_closure tm)) eqn:Hcl;
      [|rewrite (tick_stale_closure _ _ w t tm) by assumption; reflexivity].
    destruct surface as [px|];
      [|rewrite (step_tick_dropped _ _ w t tm) by auto; reflexivity].
    destruct (r_mode (tm_closure tm)) eqn:Hmode.
    + destruct (workerRef (hook w)) as [wk|] eqn:Hwk.
      * rewrite (tick_wasm _ _ w t tm wk px) by assumption.
        unfold session_cells. cbn. rewrite Hwk. reflexivity.
      * rewrite (step_tick_dropped _ _ w t tm) by auto. reflexivity.
    + rewrite (tick_server _ _ w t tm px) by assumption. reflexivity.
  - destruct (workerRef (hook w)) as [wk'|] eqn:Hwk.
    + destruct (Nat.eq_dec wk' wk) as [->|Hne].
      * destruct (in_flight_local wk w) as [|n] eqn:Hn.
        -- rewrite step_message_ignored by (right; exact Hn). reflexivity.
        -- rewrite step_message_delivered by (assumption || lia).
           unfold session_cells. cbn. destruct (hook w); reflexivity.
      * rewrite step_message_ignored; [reflexivity|].
        left. rewrite Hwk. congruence.
    + rewrite step_message_ignored; [reflexivity|].
      left. rewrite Hwk. discriminate.
  - destruct (find_fetch f w) as [q|] eqn:Hfind;
      [|rewrite step_settled_unknown by exact Hfind; reflexivity].
    rewrite (step_settled _ _ w f o q Hfind).
    destruct o as [[|] status [res| |]|].
    + rewrite resume_published. unfold session_cells. cbn.
      destruct (hook w); reflexivity.
    + rewrite resume_fallback by reflexivity. unfold session_cells. cbn.
      destruct (hook w); reflexivity.
    + rewrite resume_fallback by reflexivity. unfold session_cells. cbn.
      destruct (hook w); reflexivity.
    + rewrite resume_not_ok. reflexivity.
    + rewrite resume_not_ok. reflexivity.
    + rewrite resume_not_ok. reflexivity.
    + rewrite resume_fallback by reflexivity. unfold session_cells. cbn.
      destruct (hook w); reflexivity.
Qed.

Lemma session_cells_inv (w w' : World) :
  session_cells w' = session_cells w ->
  mode (hook w') = mode (hook w) /\
  isProcessing (hook w') = isProcessing (hook w) /\
  workerRef (hook w') = workerRef (hook w) /\
  streamRef (hook w') = streamRef (hook w) /\
  intervalRef (hook w') = intervalRef (hook w) /\
  timers (env w') = timers (env w) /\
  loading (env w') = loading (env w).
Proof.
  unfold session_cells. intros H. inversion H. repeat split; reflexivity.
Qed.

(** A render with another mode touches the worker and nothing else of
    the session. *)
Lemma rerender_keeps_session (w : World) (m : DetectionMode) :
  let w' := step now_at random_at w (Rerender m) in
  isProcessing (hook w') = isProcessing (hook w) /\
  detections (hook w') = detections (hook w) /\
  streamRef (hook w') = streamRef (hook w) /\
  intervalRef (hook w') = intervalRef (hook w) /\
  timers (env w') = timers (env w) /\
  loading (env w') = loading (env w) /\
  fetches (env w') = fetches (env w) /\
  canvases (env w') = canvases (env w) /\
  clock_calls (env w') = clock_calls (env w).
Proof.
  open_world w.
  unfold step, exec, dispatch, handler, rerender, bind, gets.
  destruct m0, m, wr; cbn; rewrite Bool.eqb_reflx; cbn;
    repeat split; reflexivity.
Qed.

End Whole.


Section Invariants.

Variable now_at : nat -> Z.
Variable random_at : nat -> Q.

Lemma step_rerender_unchanged (w : World) (m : DetectionMode) :
  mode (hook w) = m -> step now_at random_at w (Rerender m) = w.
Proof. intros <-. apply step_rerender_same. Qed.

Lemma worker_matches_mode_step (w : World) (ev : Event) :
  worker_matches_mode w = true ->
  worker_matches_mode (step now_at random_at w ev) = true.
Proof.
  intros Hinv. unfold worker_matches_mode in *.
  destruct ev as [stream|k| |t surface|wk data|f o|m].
  - destruct stream as [s|]; [|rewrite step_start_none; exact Hinv].
    destruct (isProcessing (hook w)) eqn:Hp.
    + rewrite step_start_running by exact Hp. destruct (hook w); exact Hinv.
    + rewrite step_start_idle by exact Hp. exact Hinv.
  - destruct (find_pending k w) as [p|] eqn:Hfind.
    + rewrite (step_loaded _ _ w k p Hfind). destruct (hook w); exact Hinv.
    + rewrite step_loaded_unknown by exact Hfind. exact Hinv.
  - rewrite step_stop. exact Hinv.
  - destruct (session_cells_inv _ _
                (step_keeps_session now_at random_at w (Tick t surface)))
      as [Hm [_ [Hw _]]].
    rewrite Hm, Hw. exact Hinv.
  - destruct (session_cells_inv _ _
                (step_keeps_session now_at random_at w (WorkerMessage wk data)))
      as [Hm [_ [Hw _]]].
    rewrite Hm, Hw. exact Hinv.
  - destruct (session_cells_inv _ _
                (step_keeps_session now_at random_at w (FetchSettled f o)))
      as [Hm [_ [Hw _]]].
    rewrite Hm, Hw. exact Hinv.
  - destruct (mode (hook w)) eqn:Hm, m.
    + rewrite step_rerender_unchanged by exact Hm. rewrite Hm. exact Hinv.
    + rewrite step_rerender_to_server by exact Hm. reflexivity.
    + rewrite step_rerender_to_wasm by exact Hm. reflexivity.
    + rewrite step_rerender_unchanged by exact Hm. rewrite Hm. exact Hinv.
Qed.

Lemma stream_matches_processing_step (w : World) (ev : Event) :
  stream_matches_processing w = true ->
  stream_matches_processing (step now_at random_at w ev) = true.
Proof.
  intros Hinv. unfold stream_matches_processing in *.
  destruct ev as [stream|k| |t surface|wk data|f o|m].
  - destruct stream as [s|]; [|rewrite step_start_none; exact Hinv].
    destruct (isProcessing (hook w)) eqn:Hp.
    + rewrite step_start_running by exact Hp.
      destruct (hook w); cbn in *. subst. reflexivity.
    + rewrite step_start_idle by exact Hp. reflexivity.
  - destruct (find_pending k w) as [p|] eqn:Hfind.
    + rewrite (step_loaded _ _ w k p Hfind). destruct (hook w); exact Hinv.
    + rewrite step_loaded_unknown by exact Hfind. exact Hinv.
  - rewrite step_stop. reflexivity.
  - destruct (session_cells_inv _ _
                (step_keeps_session now_at random_at w (Tick t surface)))
      as [_ [Hp [_ [Hs _]]]].
    rewrite Hp, Hs. exact Hinv.
  - destruct (session_cells_inv _ _
                (step_keeps_session now_at random_at w (WorkerMessage wk data)))
      as [_ [Hp [_ [Hs _]]]].
    rewrite Hp, Hs. exact Hinv.
  - destruct (session_cells_inv _ _
                (step_keeps_session now_at random_at w (FetchSettled f o)))
      as [_ [Hp [_ [Hs _]]]].
    rewrite Hp, Hs. exact Hinv.
  - destruct (rerender_keeps_session now_at random_at w m)
      as [Hp [_ [Hs _]]].
    cbv zeta in Hp, Hs. rewrite Hp, Hs. exact Hinv.
Qed.

Lemma existsb_snoc_id (l : list Timer) (t : Timer) :
  existsb (fun x => Nat.eqb (tm_id x) (tm_id t)) (l ++ [t]) = true.
Proof.
  rewrite existsb_app. cbn. rewrite Nat.eqb_refl.
  rewrite orb_true_r. reflexivity.
Qed.

Lemma handle_live_step (w : World) (ev : Event) :
  handle_live w = true ->
  handle_live (step now_at random_at w ev) = true.
Proof.
  intros Hinv. unfold handle_live in *.
  destruct ev as [stream|k| |t surface|wk data|f o|m].
  - destruct stream as [s|]; [|rewrite step_start_none; exact Hinv].
    destruct (isProcessing (hook w)) eqn:Hp.
    + rewrite step_start_running by exact Hp. destruct (hook w); exact Hinv.
    + rewrite step_start_idle by exact Hp. exact Hinv.
  - destruct (find_pending k w) as [p|] eqn:Hfind.
    + rewrite (step_loaded _ _ w k p Hfind).
      destruct (hook w); cbn.
      apply (existsb_snoc_id (timers (env w))
               (mkTimer (S (next_id (env w))) (ps_closure p) (ps_video p))).
    + rewrite step_loaded_unknown by exact Hfind. exact Hinv.
  - rewrite step_stop. reflexivity.
  - destruct (session_cells_inv _ _
                (step_keeps_session now_at random_at w (Tick t surface)))
      as [_ [_ [_ [_ [Hi [Ht _]]]]]].
    rewrite Hi, Ht. exact Hinv.
  - destruct (session_cells_inv _ _
                (step_keeps_session now_at random_at w (WorkerMessage wk data)))
      as [_ [_ [_ [_ [Hi [Ht _]]]]]].
    rewrite Hi, Ht. exact Hinv.
  - destruct (session_cells_inv _ _
                (step_keeps_session now_at random_at w (FetchSettled f o)))
      as [_ [_ [_ [_ [Hi [Ht _]]]]]].
    rewrite Hi, Ht. exact Hinv.
  - destruct (rerender_keeps_session now_at random_at w m)
      as [_ [_ [_ [Hi [Ht _]]]]].
    cbv zeta in Hi, Ht. rewrite Hi, Ht. exact Hinv.
Qed.

End Invariants.

(** X1: after any sequence of events on a mounted hook, a worker is
    held exactly when the mode is [wasm]: [workerRef] is null if and only
    if the mode is [server]. *)
Theorem worker_held_exactly_in_wasm_mode :
  forall (now_at : nat -> Z) (random_at : nat -> Q) (evs : list Event)
         (m : DetectionMode),
    let w := run now_at random_at evs (mount now_at m) in
    worker_matches_mode w = true /\
    (workerRef (hook w) = None <-> mode (hook w) = server).
Proof.
  intros now_at random_at evs m w.
  assert (H : worker_matches_mode w = true).
  { subst w. apply run_preserves.
    - intros w ev. apply worker_matches_mode_step.
    - destruct m; reflexivity. }
  split; [exact H|].
  unfold worker_matches_mode in H.
  destruct (mode (hook w)), (workerRef (hook w)); try discriminate H;
    split; intros H'; try reflexivity; discriminate H'.
Qed.

(** X2: after any sequence of events on a mounted hook, [streamRef]
    holds a stream exactly while [isProcessing] is true. *)
Theorem stream_held_exactly_while_processing :
  forall (now_at : nat -> Z) (random_at : nat -> Q) (evs : list Event)
         (m : DetectionMode),
    let w := run now_at random_at evs (mount now_at m) in
    stream_matches_processing w = true /\
    (streamRef (hook w) = None <-> isProcessing (hook w) = false).
Proof.
  intros now_at random_at evs m w.
  assert (H : stream_matches_processing w = true).
  { subst w. apply run_preserves.
    - intros w ev. apply stream_matches_processing_step.
    - destruct m; reflexivity. }
  split; [exact H|].
  unfold stream_matches_processing in H.
  destruct (isProcessing (hook w)), (streamRef (hook w)); try discriminate H;
    split; intros H'; try reflexivity; discriminate H'.
Qed.

(** X3: after any sequence of events on a mounted hook, a handle in
    [intervalRef] is the handle of a registered timer: [stopDetection]
    always has a timer to clear when the handle is set. *)
Theorem timer_handle_never_dangles :
  forall (now_at : nat -> Z) (random_at : nat -> Q) (evs : list Event)
         (m : DetectionMode),
    let w := run now_at random_at evs (mount now_at m) in
    handle_live w = true /\
    match intervalRef (hook w) with
    | Some id => find_timer id w <> None
    | None => True
    end.
Proof.
  intros now_at random_at evs m w.
  assert (H : handle_live w = true).
  { subst w. apply run_preserves.
    - intros w ev. apply handle_live_step.
    - destruct m; reflexivity. }
  split; [exact H|].
  unfold handle_live in H. destruct (intervalRef (hook w)) as [id|]; [|exact I].
  unfold find_timer. apply existsb_exists in H. destruct H as [t [Hin Hid]].
  intros Hnone.
  pose proof (find_none _ _ Hnone t Hin) as Hf. cbv beta in Hf. congruence.
Qed.


Section Idle.

Variable now_at : nat -> Z.
Variable random_at : nat -> Q.

Lemma testDetections_labels (w : World) :
  map label (fst (testDetections now_at w)) = test_labels.
Proof. open_world w. reflexivity. Qed.

Lemma nothing_dispatched_step (w : World) (ev : Event) :
  nothing_dispatched w ->
  match ev with
  | Start (Some _) => isProcessing (hook w) = false
  | _ => True
  end ->
  nothing_dispatched (step now_at random_at w ev).
Proof.
  intros Hinv Hev.
  destruct Hinv as [Htm [Hld [Hob [Hfs [Hcv Hds]]]]].
  destruct ev as [stream|k| |t surface|wk data|f o|m].
  - destruct stream as [s|];
      [|rewrite step_start_none; repeat split; assumption].
    rewrite step_start_idle by exact Hev.
    unfold nothing_dispatched. cbn.
    split; [exact Htm|]. split.
    { apply Forall_app. split; [exact Hld|].
      constructor; [|constructor]. exact Hev. }
    split; [exact Hob|]. split; [exact Hfs|]. split; [exact Hcv|].
    exact (testDetections_labels w).
  - destruct (find_pending k w) as [p|] eqn:Hfind.
    + rewrite (step_loaded _ _ w k p Hfind).
      unfold nothing_dispatched. cbn.
      assert (Hp : stale_pending p).
      { apply find_some in Hfind. destruct Hfind as [Hin _].
        rewrite Forall_forall in Hld. apply Hld. exact Hin. }
      split.
      { apply Forall_app. split; [exact Htm|].
        constructor; [|constructor]. exact Hp. }
      split; [apply Forall_remove_first; exact Hld|].
      split; [exact Hob|]. split; [exact Hfs|]. split; [exact Hcv|].
      destruct (hook w); exact Hds.
    + rewrite step_loaded_unknown by exact Hfind.
      repeat split; assumption.
  - rewrite step_stop. unfold nothing_dispatched. cbn.
    split.
    { destruct (intervalRef (hook w)); [|exact Htm].
      apply Forall_filter_keep. exact Htm. }
    split; [exact Hld|]. split; [exact Hob|]. split; [exact Hfs|].
    split; [exact Hcv|]. reflexivity.
  - destruct (find_timer t w) as [tm|] eqn:Hfind.
    + rewrite (tick_stale_closure _ _ w t tm); [repeat split; assumption| |].
      * exact Hfind.
      * apply find_some in Hfind. destruct Hfind as [Hin _].
        rewrite Forall_forall in Htm. apply Htm. exact Hin.
    + rewrite tick_cleared_timer by exact Hfind. repeat split; assumption.
  - rewrite step_message_ignored; [repeat split; assumption|].
    right. unfold in_flight_local. rewrite Hob. reflexivity.
  - rewrite step_settled_unknown; [repeat split; assumption|].
    unfold find_fetch. rewrite Hfs. reflexivity.
  - destruct (mode (hook w)) eqn:Hm, m.
    + rewrite step_rerender_unchanged by exact Hm. repeat split; assumption.
    + rewrite step_rerender_to_server by exact Hm.
      unfold nothing_dispatched.
      destruct (workerRef (hook w)), (hook w); cbn in *;
        rewrite ?Hob; cbn; repeat split; assumption.
    + rewrite step_rerender_to_wasm by exact Hm.
      unfold nothing_dispatched.
      destruct (workerRef (hook w)), (hook w); cbn in *;
        rewrite ?Hob; cbn; repeat split; assumption.
    + rewrite step_rerender_unchanged by exact Hm. repeat split; assumption.
Qed.

Lemma mount_nothing_dispatched (m : DetectionMode) :
  nothing_dispatched (mount now_at m).
Proof.
  destruct m; unfold nothing_dispatched; cbn;
    repeat split; try constructor.
Qed.

Lemma nothing_dispatched_run (evs : list Event) (w : World) :
  nothing_dispatched w ->
  starts_from_idle now_at random_at evs w ->
  nothing_dispatched (run now_at random_at evs w).
Proof.
  revert w. induction evs as [|ev l IH]; intros w Hw Hevs.
  - exact Hw.
  - cbn [run fold_left]. destruct Hevs as [Hev Hl].
    apply IH; [|exact Hl].
    apply nothing_dispatched_step; assumption.
Qed.

End Idle.

(** X4: as long as [startDetection] is called with a stream only while
    the hook is not processing, no frame ever leaves the hook: no canvas
    is created, nothing is posted to the worker, no request is sent, and
    what is published is empty when idle and the three test detections
    when processing.  The sampler of such a start calls the
    [processFrame] of the idle render, which returns at line 34. *)
Theorem start_from_idle_never_dispatches :
  forall (now_at : nat -> Z) (random_at : nat -> Q) (evs : list Event)
         (m : DetectionMode),
    starts_from_idle now_at random_at evs (mount now_at m) ->
    let w := run now_at random_at evs (mount now_at m) in
    outbox (env w) = [] /\
    fetches (env w) = [] /\
    canvases (env w) = 0%nat /\
    (if isProcessing (hook w)
     then map label (detections (hook w)) = test_labels
     else detections (hook w) = []).
Proof.
  intros now_at random_at evs m Hevs w.
  assert (H : nothing_dispatched w).
  { subst w. apply nothing_dispatched_run; [|exact Hevs].
    apply mount_nothing_dispatched. }
  destruct H as [_ [_ [Hob [Hfs [Hcv Hds]]]]].
  repeat split; assumption.
Qed.

Lemma start_from_idle_never_dispatches_witness :
  starts_from_idle clock0 dice0 usual_session (mount clock0 wasm) /\
  outbox (env (run clock0 dice0 usual_session (mount clock0 wasm))) = [] /\
  canvases (env (run clock0 dice0 usual_session (mount clock0 wasm))) = 0%nat.
Proof.
  assert (H : starts_from_idle clock0 dice0 usual_session (mount clock0 wasm)).
  { vm_compute. repeat split. }
  split; [exact H|].
  pose proof (start_from_idle_never_dispatches clock0 dice0 usual_session
                wasm H) as H'.
  cbv zeta in H'. destruct H' as [H1 [_ [H3 _]]]. split; assumption.
Defined.


(** X6: [startDetection] with a stream registers no timer by itself
    and sends nothing.  From the idle render it publishes the three test
    detections (person, phone, bottle) at once, reading the clock twelve
    times; while already processing it leaves [detections] and the clock
    as they are. *)
Theorem start_publishes_test_detections_once :
  forall (now_at : nat -> Z) (random_at : nat -> Q) (w : World)
         (s : MediaStream),
    let w' := step now_at random_at w (Start (Some s)) in
    timers (env w') = timers (env w) /\
    intervalRef (hook w') = intervalRef (hook w) /\
    outbox (env w') = outbox (env w) /\
    fetches (env w') = fetches (env w) /\
    if isProcessing (hook w)
    then detections (hook w') = detections (hook w) /\
         clock_calls (env w') = clock_calls (env w)
    else detections (hook w') = fst (testDetections now_at w) /\
         map label (detections (hook w')) = test_labels /\
         clock_calls (env w') = (12 + clock_calls (env w))%nat.
Proof.
  intros now_at random_at w s w'. subst w'.
  destruct (isProcessing (hook w)) eqn:Hp.
  - rewrite step_start_running by exact Hp.
    destruct (hook w); cbn. repeat split; reflexivity.
  - rewrite step_start_idle by exact Hp. cbn.
    split; [reflexivity|]. split; [reflexivity|]. split; [reflexivity|].
    split; [reflexivity|]. split; [reflexivity|].
    split; [exact (testDetections_labels now_at w)|reflexivity].
Qed.

(** X7: [stopDetection] called between [startDetection] and its
    [loadedmetadata] does not cancel the start: when the metadata load,
    the interval is registered and its handle stored although the hook
    is idle with no stream and no detections. *)
Theorem stop_before_loadedmetadata_leaves_timer :
  forall (now_at : nat -> Z) (random_at : nat -> Q) (w : World)
         (s : MediaStream),
    find_pending (S (next_id (env w))) w = None ->
    let k := S (next_id (env w)) in
    let w' := run now_at random_at
                  [Start (Some s); Stop; LoadedMetadata k] w in
    isProcessing (hook w') = false /\
    detections (hook w') = [] /\
    streamRef (hook w') = None /\
    intervalRef (hook w') = Some (S k) /\
    In (mkTimer (S k) (current_render w) s) (timers (env w')) /\
    live_timers w' =
      S (live_timers (step now_at random_at w Stop)).
Proof.
  intros now_at random_at w s Hfresh k w'. subst w' k.
  cbn [run fold_left].
  set (w1 := step now_at random_at w (Start (Some s))).
  set (p := mkPendingStart (S (next_id (env w))) (current_render w) s).
  assert (H1 : loading (env w1) = loading (env w) ++ [p] /\
               next_id (env w1) = S (next_id (env w)) /\
               timers (env w1) = timers (env w) /\
               intervalRef (hook w1) = intervalRef (hook w)).
  { subst w1. destruct (isProcessing (hook w)) eqn:Hp.
    - rewrite step_start_running by exact Hp. destruct (hook w); cbn.
      repeat split; reflexivity.
    - rewrite step_start_idle by exact Hp. cbn. repeat split; reflexivity. }
  destruct H1 as [Hld [Hnid [Htm Hir]]].
  set (w2 := step now_at random_at w1 Stop).
  assert (Hfind : find_pending (S (next_id (env w))) w2 = Some p).
  { subst w2. rewrite step_stop. unfold find_pending. cbn. rewrite Hld.
    apply find_snoc_fresh; [exact Hfresh|]. cbn. apply Nat.eqb_refl. }
  rewrite (step_loaded _ _ w2 _ p Hfind).
  assert (Hnid2 : next_id (env w2) = S (next_id (env w))).
  { subst w2. rewrite step_stop. cbn. exact Hnid. }
  assert (Hh2 : hook w2 =
                mkHook (mode (hook w1)) [] false (workerRef (hook w1)) None None).
  { subst w2. rewrite step_stop. reflexivity. }
  cbn. rewrite Hnid2, Hh2. cbn.
  split; [reflexivity|]. split; [reflexivity|]. split; [reflexivity|].
  split; [reflexivity|]. split.
  - apply in_or_app. right. left. reflexivity.
  - unfold live_timers. rewrite length_app. cbn.
    assert (Ht2 : timers (env w2) = timers (env (step now_at random_at w Stop))).
    { subst w2. rewrite !step_stop. cbn. rewrite Htm, Hir. reflexivity. }
    rewrite Ht2. lia.
Qed.

Lemma stop_before_loadedmetadata_leaves_timer_witness :
  find_pending 2 (mount clock0 wasm) = None /\
  isProcessing
    (hook (run clock0 dice0 [Start (Some camera); Stop; LoadedMetadata 2]
               (mount clock0 wasm))) = false /\
  live_timers (run clock0 dice0 [Start (Some camera); Stop; LoadedMetadata 2]
                   (mount clock0 wasm)) = 1%nat.
Proof.
  split; [reflexivity|].
  pose proof (stop_before_loadedmetadata_leaves_timer clock0 dice0
                (mount clock0 wasm) camera eq_refl) as H.
  cbv zeta in H. destruct H as [H1 [_ [_ [_ [_ H6]]]]].
  split; [exact H1|exact H6].
Defined.

(** X8: a second [stopDetection] changes no cell of the hook and
    nothing in the browser but the console line it writes. *)
Theorem stop_twice_is_stop_once :
  forall (now_at : nat -> Z) (random_at : nat -> Q) (w : World),
    let once := step now_at random_at w Stop in
    let twice := step now_at random_at once Stop in
    hook twice = hook once /\
    twice =
      on_env (fun b =>
        with_console (console b ++ [ConsoleLog "Object detection stopped"]) b)
        once.
Proof.
  intros now_at random_at w once twice. subst twice once.
  rewrite !step_stop. cbn. split; reflexivity.
Qed.

(** X9: a tick, a worker message and the settlement of a request,
    failed or not, leave the mode, [isProcessing], the three refs, the
    registered timers and the pending starts as they were: no frame
    failure stops the sampler. *)
Theorem frames_and_completions_keep_the_session :
  forall (now_at : nat -> Z) (random_at : nat -> Q) (w : World)
         (t : TimerId) (surface : option Pixels) (wk : WorkerId)
         (data : WorkerResponse) (f : FetchId) (o : FetchOutcome),
    session_cells (step now_at random_at w (Tick t surface)) = session_cells w /\
    session_cells (step now_at random_at w (WorkerMessage wk data)) =
      session_cells w /\
    session_cells (step now_at random_at w (FetchSettled f o)) =
      session_cells w.
Proof.
  intros now_at random_at w t surface wk data f o.
  split; [|split].
  - exact (step_keeps_session now_at random_at w (Tick t surface)).
  - exact (step_keeps_session now_at random_at w (WorkerMessage wk data)).
  - exact (step_keeps_session now_at random_at w (FetchSettled f o)).
Qed.

(** X10: of two requests in flight that are both answered with
    success, the one that settles last decides what is published,
    [result.detections || []], whichever frame it was for; each
    settlement takes its request off the wire. *)
Theorem last_settled_response_wins :
  forall (now_at : nat -> Z) (random_at : nat -> Q) (w : World)
         (f1 f2 : FetchId) (q1 q2 : FetchId * FormData)
         (st1 st2 : Z) (r1 r2 : ServerResult),
    find_fetch f1 w = Some q1 ->
    find_fetch f2 w = Some q2 ->
    f1 <> f2 ->
    let w' := run now_at random_at
                [FetchSettled f1 (Responded true st1 (JsonObject r1));
                 FetchSettled f2 (Responded true st2 (JsonObject r2))] w in
    detections (hook w') = published_of r2 /\
    in_flight_remote w = S (S (in_flight_remote w')).
Proof.
  intros now_at random_at w f1 f2 q1 q2 st1 st2 r1 r2 H1 H2 Hne w'.
  subst w'. cbn [run fold_left].
  rewrite (step_settled _ _ w f1 _ q1 H1), resume_published. cbn [snd].
  match goal with
  | |- context [step _ _ ?x _] => set (w1 := x)
  end.
  assert (H2' : find_fetch f2 w1 = Some q2).
  { subst w1. unfold find_fetch in *. cbn.
    rewrite find_remove_first_other; [exact H2|].
    intros x Hx. apply Nat.eqb_eq in Hx. apply Nat.eqb_neq. congruence. }
  rewrite (step_settled _ _ w1 f2 _ q2 H2'), resume_published. cbn [snd].
  split.
  - cbn. reflexivity.
  - unfold in_flight_remote. cbn.
    unfold find_fetch in H1, H2'. subst w1. cbn in H2'.
    rewrite (length_remove_first_found _ _ _ H1). f_equal.
    exact (length_remove_first_found _ _ _ H2').
Qed.


Lemma last_settled_response_wins_witness :
  (find_fetch 6 two_requests_server <> None /\
   find_fetch 5 two_requests_server <> None) /\
  detections
    (hook (run clock0 dice0
             [FetchSettled 6 (Responded true 200 (JsonObject person_result));
              FetchSettled 5 (Responded true 200 (JsonObject empty_result))]
             two_requests_server)) = [].
Proof.
  split.
  - split; vm_compute; discriminate.
  - exact (proj1 (last_settled_response_wins clock0 dice0 two_requests_server
                    6%nat 5%nat
                    (6%nat, mkFormData (mkCanvas 320 240 frame1) 1700000000013)
                    (5%nat, mkFormData (mkCanvas 320 240 frame0) 1700000000012)
                    200 200 person_result empty_result
                    eq_refl eq_refl ltac:(discriminate))).
Defined.

Section Backends.

Variable now_at : nat -> Z.
Variable random_at : nat -> Q.

Lemma tick_allocates_canvas (w : World) (t : TimerId) (tm : Timer)
      (surface : option Pixels) :
  find_timer t w = Some tm ->
  r_isProcessing (tm_closure tm) = true ->
  canvases (env (step now_at random_at w (Tick t surface))) =
  S (canvases (env w)).
Proof.
  intros Hfind Hcl.
  destruct surface as [px|];
    [|rewrite (step_tick_dropped _ _ w t tm) by auto; reflexivity].
  destruct (r_mode (tm_closure tm)) eqn:Hmode.
  - destruct (workerRef (hook w)) as [wk|] eqn:Hwk.
    + rewrite (tick_wasm _ _ w t tm wk px) by assumption. reflexivity.
    + rewrite (step_tick_dropped _ _ w t tm) by auto. reflexivity.
  - rewrite (tick_server _ _ w t tm px) by assumption. reflexivity.
Qed.

Lemma rerender_keeps_timer (w : World) (m : DetectionMode) (t : TimerId) :
  find_timer t (step now_at random_at w (Rerender m)) = find_timer t w.
Proof.
  unfold find_timer.
  destruct (rerender_keeps_session now_at random_at w m)
    as [_ [_ [_ [_ [Ht _]]]]].
  cbv zeta in Ht. rewrite Ht. reflexivity.
Qed.

Lemma cleanup_run (w : World) :
  exec workerCleanup w =
  mkWorld (with_workerRef None (hook w))
    (match workerRef (hook w) with
     | Some wk =>
         with_outbox
           (filter (fun p => negb (addressed_to wk p)) (outbox (env w)))
           (env w)
     | None => env w
     end).
Proof. open_world w. destruct wr; reflexivity. Qed.

End Backends.

(** X11: a sampler keeps the backend of the render that started it.
    After the mode has changed to [wasm], the timer of a [server] render
    still sends its frames to the endpoint and posts nothing; after the
    mode has changed from [wasm] to [server], the timer of a [wasm]
    render still draws each frame on a new canvas and sends it
    nowhere. *)
Theorem timer_keeps_backend_of_its_render :
  forall (now_at : nat -> Z) (random_at : nat -> Q) (w : World) (t : TimerId)
         (tm : Timer) (px : Pixels),
    find_timer t w = Some tm ->
    r_isProcessing (tm_closure tm) = true ->
    match r_mode (tm_closure tm) with
    | server =>
        let w1 := step now_at random_at w (Rerender wasm) in
        let w2 := step now_at random_at w1 (Tick t (Some px)) in
        in_flight_remote w2 = S (in_flight_remote w1) /\
        outbox (env w2) = outbox (env w1)
    | wasm =>
        let w1 := step now_at random_at w (Rerender server) in
        let w2 := step now_at random_at w1 (Tick t (Some px)) in
        mode (hook w) = wasm ->
        outbox (env w2) = outbox (env w1) /\
        fetches (env w2) = fetches (env w1) /\
        canvases (env w2) = S (canvases (env w1))
    end.
Proof.
  intros now_at random_at w t tm px Hfind Hcl.
  destruct (r_mode (tm_closure tm)) eqn:Hmode; cbv zeta.
  - intros Hm.
    assert (Hfind1 : find_timer t (step now_at random_at w (Rerender server))
                     = Some tm)
      by (rewrite rerender_keeps_timer; exact Hfind).
    assert (Hwk : workerRef (hook (step now_at random_at w (Rerender server)))
                  = None)
      by (rewrite step_rerender_to_server by exact Hm; reflexivity).
    rewrite (step_tick_dropped _ _ _ t tm (Some px) Hfind1 Hcl)
      by (right; split; assumption).
    repeat split; reflexivity.
  - assert (Hfind1 : find_timer t (step now_at random_at w (Rerender wasm))
                     = Some tm)
      by (rewrite rerender_keeps_timer; exact Hfind).
    rewrite (tick_server _ _ _ t tm px Hfind1 Hcl Hmode).
    unfold in_flight_remote. cbn. rewrite length_app. cbn.
    split; [lia|reflexivity].
Qed.

Lemma timer_keeps_backend_of_its_render_witness :
  (find_timer 4 restarted_server = Some timer4 /\
   r_isProcessing (tm_closure timer4) = true) /\
  mode (hook (step clock0 dice0 restarted_server (Rerender wasm))) = wasm /\
  in_flight_remote
    (step clock0 dice0 (step clock0 dice0 restarted_server (Rerender wasm))
          (Tick 4 (Some frame0))) = 1%nat.
Proof.
  split; [split; reflexivity|]. split; [reflexivity|].
  exact (proj1 (timer_keeps_backend_of_its_render clock0 dice0
                  restarted_server 4%nat timer4 frame0 eq_refl eq_refl)).
Defined.

(** X12: unmounting terminates the worker and nothing else: the timers
    stay registered, their handle stays in [intervalRef], and a tick
    afterwards still creates a canvas; the timer of a [server] render
    still sends its request, any other frame goes nowhere. *)
Theorem unmount_leaves_the_sampler_running :
  forall (now_at : nat -> Z) (random_at : nat -> Q) (w : World) (t : TimerId)
         (tm : Timer) (surface : option Pixels),
    find_timer t w = Some tm ->
    r_isProcessing (tm_closure tm) = true ->
    let w1 := exec unmount w in
    let w2 := step now_at random_at w1 (Tick t surface) in
    workerRef (hook w1) = None /\
    timers (env w1) = timers (env w) /\
    intervalRef (hook w1) = intervalRef (hook w) /\
    isProcessing (hook w1) = isProcessing (hook w) /\
    canvases (env w2) = S (canvases (env w1)) /\
    match r_mode (tm_closure tm), surface with
    | server, Some _ => in_flight_remote w2 = S (in_flight_remote w1)
    | _, _ => in_flight_remote w2 = in_flight_remote w1 /\
              outbox (env w2) = outbox (env w1)
    end.
Proof.
  intros now_at random_at w t tm surface Hfind Hcl w1 w2.
  assert (Hw1 : w1 = mkWorld (with_workerRef None (hook w))
             (match workerRef (hook w) with
              | Some wk =>
                  with_outbox
                    (filter (fun p => negb (addressed_to wk p))
                            (outbox (env w))) (env w)
              | None => env w
              end)) by apply cleanup_run.
  assert (Htm : timers (env w1) = timers (env w))
    by (rewrite Hw1; destruct (workerRef (hook w)); reflexivity).
  assert (Hfind1 : find_timer t w1 = Some tm)
    by (unfold find_timer; rewrite Htm; exact Hfind).
  assert (Hwk : workerRef (hook w1) = None)
    by (rewrite Hw1; reflexivity).
  split; [exact Hwk|]. split; [exact Htm|].
  split; [rewrite Hw1; destruct (hook w); reflexivity|].
  split; [rewrite Hw1; destruct (hook w); reflexivity|].
  split; [apply tick_allocates_canvas with (tm := tm); assumption|].
  subst w2.
  destruct (r_mode (tm_closure tm)) eqn:Hmode.
  - rewrite (step_tick_dropped _ _ w1 t tm surface Hfind1 Hcl)
      by (right; split; assumption).
    split; reflexivity.
  - destruct surface as [px|].
    + rewrite (tick_server _ _ w1 t tm px Hfind1 Hcl Hmode).
      unfold in_flight_remote. cbn. rewrite length_app. cbn. lia.
    + rewrite (step_tick_dropped _ _ w1 t tm None Hfind1 Hcl) by auto.
      split; reflexivity.
Qed.

Lemma unmount_leaves_the_sampler_running_witness :
  (find_timer 5 restarted_wasm = Some timer5 /\
   r_isProcessing (tm_closure timer5) = true) /\
  timers (env (exec unmount restarted_wasm)) = [timer3; timer5] /\
  canvases (env (step clock0 dice0 (exec unmount restarted_wasm)
                      (Tick 5 (Some frame0)))) = 1%nat.
Proof.
  split; [split; reflexivity|].
  pose proof (unmount_leaves_the_sampler_running clock0 dice0 restarted_wasm
                5%nat timer5 (Some frame0) eq_refl eq_refl) as H.
  cbv zeta in H. destruct H as [_ [H2 [_ [_ [H5 _]]]]].
  split; [exact H2|exact H5].
Defined.


Lemma nondecreasing_snoc (l : list Z) (x : Z) :
  nondecreasing l -> Forall (fun y => y <= x) l -> nondecreasing (l ++ [x]).
Proof.
  induction l as [|a l IH]; intros Hnd Hle; cbn.
  - split; constructor.
  - destruct Hnd as [Ha Hl]. inversion Hle as [|a' l' Hax Hlx]; subst.
    split.
    + apply Forall_app. split; [exact Ha|]. constructor; [exact Hax|constructor].
    + apply IH; assumption.
Qed.

Lemma nondecreasing_remove_first {A : Type} (g : A -> Z) (f : A -> bool)
      (l : list A) :
  nondecreasing (map g l) -> nondecreasing (map g (remove_first f l)).
Proof.
  induction l as [|a l IH]; cbn; [trivial|].
  intros [Ha Hl]. destruct (f a); [exact Hl|]. cbn. split.
  - rewrite Forall_map in *. apply Forall_remove_first. exact Ha.
  - apply IH. exact Hl.
Qed.

Lemma nondecreasing_filter {A : Type} (g : A -> Z) (f : A -> bool)
      (l : list A) :
  nondecreasing (map g l) -> nondecreasing (map g (filter f l)).
Proof.
  induction l as [|a l IH]; cbn; [trivial|].
  intros [Ha Hl]. destruct (f a); [|apply IH; exact Hl]. cbn. split.
  - rewrite Forall_map in *. apply Forall_filter_keep. exact Ha.
  - apply IH. exact Hl.
Qed.

Section Requests.

Variable now_at : nat -> Z.
Variable random_at : nat -> Q.
Hypothesis Hclock : clock_monotone now_at.

(** The same requests, with the clock read some more. *)
Lemma requests_in_order_later (w w' : World) :
  outbox (env w') = outbox (env w) ->
  fetches (env w') = fetches (env w) ->
  (clock_calls (env w) <= clock_calls (env w'))%nat ->
  requests_in_order now_at w -> requests_in_order now_at w'.
Proof.
  intros Hob Hfs Hcc [Hreq [Hup [Hbound Hnd]]].
  unfold requests_in_order, frame_ids in *. rewrite Hob, Hfs.
  split; [exact Hreq|]. split; [exact Hup|]. split; [|exact Hnd].
  eapply Forall_impl; [|exact Hbound].
  intros id Hid. cbv beta in *. pose proof (Hclock _ _ Hcc). lia.
Qed.

(** Fewer requests, the clock as it was. *)
Lemma requests_in_order_fewer (w w' : World) (f : WorkerId * WorkerRequest -> bool) :
  outbox (env w') = remove_first f (outbox (env w)) \/
  outbox (env w') = filter f (outbox (env w)) ->
  fetches (env w') = fetches (env w) ->
  clock_calls (env w') = clock_calls (env w) ->
  requests_in_order now_at w -> requests_in_order now_at w'.
Proof.
  intros Hob Hfs Hcc [Hreq [Hup [Hbound Hnd]]].
  unfold requests_in_order, frame_ids in *. rewrite Hfs, Hcc.
  rewrite Forall_map in Hbound.
  destruct Hob as [-> | ->].
  - split; [apply Forall_remove_first; exact Hreq|]. split; [exact Hup|].
    split; [rewrite Forall_map; apply Forall_remove_first; exact Hbound|].
    apply nondecreasing_remove_first. exact Hnd.
  - split; [apply Forall_filter_keep; exact Hreq|]. split; [exact Hup|].
    split; [rewrite Forall_map; apply Forall_filter_keep; exact Hbound|].
    apply nondecreasing_filter. exact Hnd.
Qed.

Lemma requests_in_order_step (w : World) (ev : Event) :
  requests_in_order now_at w ->
  requests_in_order now_at (step now_at random_at w ev).
Proof.
  intros Hinv.
  destruct ev as [stream|k| |t surface|wk data|f o|m].
  - destruct stream as [s|]; [|rewrite step_start_none; exact Hinv].
    destruct (isProcessing (hook w)) eqn:Hp.
    + rewrite step_start_running by exact Hp.
      apply (requests_in_order_later w); try reflexivity. exact Hinv.
    + rewrite step_start_idle by exact Hp.
      apply (requests_in_order_later w); try reflexivity; [cbn; lia|exact Hinv].
  - destruct (find_pending k w) as [p|] eqn:Hfind.
    + rewrite (step_loaded _ _ w k p Hfind).
      apply (requests_in_order_later w); try reflexivity. exact Hinv.
    + rewrite step_loaded_unknown by exact Hfind. exact Hinv.
  - rewrite step_stop.
    apply (requests_in_order_later w); try reflexivity. exact Hinv.
  - destruct (find_timer t w) as [tm|] eqn:Hfind;
      [|rewrite tick_cleared_timer by exact Hfind; exact Hinv].
    destruct (r_isProcessing (tm_closure tm)) eqn:Hcl;
      [|rewrite (tick_stale_closure _ _ w t tm) by assumption; exact Hinv].
    assert (Hdrop : requests_in_order now_at
                      (on_env (with_canvases (S (canvases (env w)))) w))
      by (apply (requests_in_order_later w); try reflexivity; exact Hinv).
    destruct surface as [px|];
      [|rewrite (step_tick_dropped _ _ w t tm) by auto; exact Hdrop].
    destruct (r_mode (tm_closure tm)) eqn:Hmode.
    + destruct (workerRef (hook w)) as [wk|] eqn:Hwk;
        [|rewrite (step_tick_dropped _ _ w t tm) by auto; exact Hdrop].
      rewrite (tick_wasm _ _ w t tm wk px) by assumption.
      destruct Hinv as [Hreq [Hup [Hbound Hnd]]].
      set (c := clock_calls (env w)) in *.
      pose proof (Hclock c (S c) ltac:(lia)) as H01.
      pose proof (Hclock (S c) (S (S c)) ltac:(lia)) as H12.
      unfold requests_in_order, frame_ids in *. cbn.
      split.
      { apply Forall_app. split; [exact Hreq|].
        constructor; [|constructor]. unfold request_ok. cbn.
        repeat split; try reflexivity. exact H01. }
      split; [exact Hup|]. rewrite map_app. cbn. split.
      { apply Forall_app. split.
        - eapply Forall_impl; [|exact Hbound]. intros id Hid. cbv beta in *. lia.
        - constructor; [exact H12|constructor]. }
      apply nondecreasing_snoc; [exact Hnd|].
      eapply Forall_impl; [|exact Hbound]. intros id Hid. cbv beta in *. lia.
    + rewrite (tick_server _ _ w t tm px) by assumption.
      destruct Hinv as [Hreq [Hup [Hbound Hnd]]].
      pose proof (Hclock (clock_calls (env w)) (S (clock_calls (env w)))
                         ltac:(lia)) as H01.
      unfold requests_in_order, frame_ids in *. cbn.
      split; [exact Hreq|]. split.
      { apply Forall_app. split; [exact Hup|].
        constructor; [|constructor]. split; reflexivity. }
      split; [|exact Hnd].
      eapply Forall_impl; [|exact Hbound]. intros id Hid. cbv beta in *. lia.
  - destruct (workerRef (hook w)) as [wk'|] eqn:Hwk.
    + destruct (Nat.eq_dec wk' wk) as [->|Hne].
      * destruct (in_flight_local wk w) as [|n] eqn:Hn.
        -- rewrite step_message_ignored by (right; exact Hn). exact Hinv.
        -- rewrite step_message_delivered by (assumption || lia).
           apply (requests_in_order_fewer w _ (addressed_to wk));
             try reflexivity; [left; reflexivity|exact Hinv].
      * rewrite step_message_ignored; [exact Hinv|].
        left. rewrite Hwk. congruence.
    + rewrite step_message_ignored; [exact Hinv|].
      left. rewrite Hwk. discriminate.
  - destruct (find_fetch f w) as [q|] eqn:Hfind;
      [|rewrite step_settled_unknown by exact Hfind; exact Hinv].
    rewrite (step_settled _ _ w f o q Hfind).
    set (w1 := on_env _ w).
    assert (H1 : requests_in_order now_at w1).
    { destruct Hinv as [Hreq [Hup [Hbound Hnd]]].
      subst w1. unfold requests_in_order, frame_ids in *. cbn.
      split; [exact Hreq|]. split; [|split; assumption].
      apply Forall_remove_first. exact Hup. }
    destruct o as [[|] status [res| |]|].
    + rewrite resume_published.
      apply (requests_in_order_later w1); try reflexivity. exact H1.
    + rewrite resume_fallback by reflexivity.
      apply (requests_in_order_later w1); try reflexivity; [cbn; lia|exact H1].
    + rewrite resume_fallback by reflexivity.
      apply (requests_in_order_later w1); try reflexivity; [cbn; lia|exact H1].
    + rewrite resume_not_ok.
      apply (requests_in_order_later w1); try reflexivity. exact H1.
    + rewrite resume_not_ok.
      apply (requests_in_order_later w1); try reflexivity. exact H1.
    + rewrite resume_not_ok.
      apply (requests_in_order_later w1); try reflexivity. exact H1.
    + rewrite resume_fallback by reflexivity.
      apply (requests_in_order_later w1); try reflexivity; [cbn; lia|exact H1].
  - destruct (mode (hook w)) eqn:Hm, m.
    + rewrite step_rerender_unchanged by exact Hm. exact Hinv.
    + rewrite step_rerender_to_server by exact Hm.
      destruct (workerRef (hook w)) as [wk|].
      * apply (requests_in_order_fewer w _
                 (fun p => negb (addressed_to wk p)));
          try reflexivity; [right; reflexivity|exact Hinv].
      * apply (requests_in_order_later w); try reflexivity. exact Hinv.
    + rewrite step_rerender_to_wasm by exact Hm.
      destruct (workerRef (hook w)) as [wk|].
      * apply (requests_in_order_fewer w _
                 (fun p => negb (addressed_to wk p)));
          try reflexivity; [right; reflexivity|exact Hinv].
      * apply (requests_in_order_later w); try reflexivity. exact Hinv.
    + rewrite step_rerender_unchanged by exact Hm. exact Hinv.
Qed.

Lemma mount_requests_in_order (m : DetectionMode) :
  requests_in_order now_at (mount now_at m).
Proof.
  destruct m; unfold requests_in_order, frame_ids; cbn;
    repeat split; constructor.
Qed.

End Requests.

(** X13: with a clock that never goes back, after any sequence of
    events every request waiting at the worker is 320 by 240 with
    [timestamp <= frameId], every request on the wire carries a 320 by
    240 image, and the frame identifiers of the requests waiting at the
    worker never decrease from one to the next (they may repeat). *)
Theorem requests_stay_wellformed_and_ordered :
  forall (now_at : nat -> Z) (random_at : nat -> Q),
    clock_monotone now_at ->
    forall (evs : list Event) (m : DetectionMode),
      let w := run now_at random_at evs (mount now_at m) in
      Forall request_ok (outbox (env w)) /\
      Forall upload_ok (fetches (env w)) /\
      nondecreasing (frame_ids w).
Proof.
  intros now_at random_at Hclock evs m w.
  assert (H : requests_in_order now_at w).
  { subst w. apply run_preserves.
    - intros w ev. apply requests_in_order_step. exact Hclock.
    - apply mount_requests_in_order. }
  destruct H as [H1 [H2 [_ H4]]]. repeat split; assumption.
Qed.

Lemma requests_stay_wellformed_and_ordered_witness :
  clock_monotone clock0 /\
  nondecreasing
    (frame_ids (run clock0 dice0 two_ticks_wasm (mount clock0 wasm))) /\
  frame_ids (run clock0 dice0 two_ticks_wasm (mount clock0 wasm)) =
    [1700000000013; 1700000000015].
Proof.
  split; [exact clock0_monotone|]. split.
  - exact (proj2 (proj2 (requests_stay_wellformed_and_ordered clock0 dice0
                           clock0_monotone two_ticks_wasm wasm))).
  - vm_compute. reflexivity.
Defined.


(** X14: with a clock that never goes back and [Math.random()] in
    [[0, 1)], if every detection the worker and the endpoint send is
    valid, then after any sequence of events every published detection
    is valid; what the hook adds of its own, the test detections and the
    mock fallback, is valid. *)
Theorem published_detections_stay_valid :
  forall (now_at : nat -> Z) (random_at : nat -> Q),
    clock_monotone now_at ->
    random_unit random_at ->
    forall (evs : list Event) (m : DetectionMode),
      Forall relayed_valid evs ->
      Forall valid_detection
        (detections (hook (run now_at random_at evs (mount now_at m)))).
Proof.
  intros now_at random_at Hclock Hrandom evs m Hevs.
  exact (published_detections_valid now_at random_at Hclock Hrandom evs m Hevs).
Qed.

Lemma published_detections_stay_valid_witness :
  (clock_monotone clock0 /\ random_unit dice0 /\
   Forall relayed_valid late_failure_server) /\
  Forall valid_detection
    (detections
       (hook (run clock0 dice0 late_failure_server (mount clock0 server)))).
Proof.
  assert (H : Forall relayed_valid late_failure_server).
  { unfold late_failure_server, stopped_in_flight_server, restart_server.
    repeat constructor. }
  split.
  - split; [exact clock0_monotone|]. split; [exact dice0_unit|exact H].
  - exact (published_detections_stay_valid clock0 dice0 clock0_monotone
             dice0_unit late_failure_server server H).
Defined.

(** X15: as long as no worker message and no settlement of a request
    has been delivered, "not processing implies no detections" holds
    after any sequence of events. *)
Theorem idle_is_empty_until_a_completion :
  forall (now_at : nat -> Z) (random_at : nat -> Q) (evs : list Event)
         (m : DetectionMode),
    Forall (fun ev => is_completion ev = false) evs ->
    idle_is_empty (run now_at random_at evs (mount now_at m)).
Proof.
  intros now_at random_at evs m Hevs.
  assert (Hgen : forall (l : list Event) (w : World),
             Forall (fun ev => is_completion ev = false) l ->
             idle_is_empty w -> idle_is_empty (run now_at random_at l w)).
  { induction l as [|ev l IH]; intros w Hl Hw; [exact Hw|].
    inversion Hl as [|ev' l' Hev Hl']; subst.
    cbn [run fold_left]. apply IH; [exact Hl'|].
    apply idle_is_empty_preserved; assumption. }
  apply Hgen; [exact Hevs|]. apply mount_idle_is_empty.
Qed.

Lemma idle_is_empty_until_a_completion_witness :
  Forall (fun ev => is_completion ev = false) stopped_in_flight_server /\
  idle_is_empty (run clock0 dice0 stopped_in_flight_server (mount clock0 server)).
Proof.
  assert (H : Forall (fun ev => is_completion ev = false)
                     stopped_in_flight_server).
  { unfold stopped_in_flight_server, restart_server. repeat constructor. }
  split; [exact H|].
  exact (idle_is_empty_until_a_completion clock0 dice0
           stopped_in_flight_server server H).
Defined.

(** X16: the detection of the fallback batch is labelled person; its
    score and its box corners lie in the ranges of lines 86-90 widened
    by 0.01 on either side, which leaves room for the rounding of the
    doubles: score between 0.79 and 0.96, [xmin] between 0.14 and 0.26,
    [ymin] between 0.09 and 0.21, [xmax] between 0.39 and 0.51, [ymax]
    between 0.79 and 0.91. *)
Theorem fallback_detection_ranges :
  forall (now_at : nat -> Z) (random_at : nat -> Q),
    random_unit random_at ->
    forall (w : World) (d : Detection),
      In d (fst (mockDetections now_at random_at w)) ->
      label d = "person"%string /\
      (0.79 < score d /\ score d < 0.96)%Q /\
      (0.14 < xmin d /\ xmin d < 0.26)%Q /\
      (0.09 < ymin d /\ ymin d < 0.21)%Q /\
      (0.39 < xmax d /\ xmax d < 0.51)%Q /\
      (0.79 < ymax d /\ ymax d < 0.91)%Q.
Proof.
  intros now_at random_at Hrandom w d Hin.
  rewrite mockDetections_run in Hin. cbn [fst] in Hin.
  destruct Hin as [<-|[]].
  set (r := random_calls (env w)).
  destruct (Hrandom r) as [? ?].
  destruct (Hrandom (S r)) as [? ?].
  destruct (Hrandom (S (S r))) as [? ?].
  destruct (Hrandom (S (S (S r)))) as [? ?].
  destruct (Hrandom (S (S (S (S r))))) as [? ?].
  cbn [label score xmin ymin xmax ymax].
  split; [reflexivity|]. repeat split; lra.
Qed.

Lemma fallback_detection_ranges_witness :
  random_unit dice0 /\
  (0.79 < 0.80 + (1 # 2) * 0.15 /\ 0.80 + (1 # 2) * 0.15 < 0.96)%Q.
Proof.
  split; [exact dice0_unit|].
  exact (proj1 (proj2 (fallback_detection_ranges clock0 dice0 dice0_unit
                         (mount clock0 server) _ (or_introl eq_refl)))).
Defined.

(** X5: a [startDetection] called while the hook is processing, once
    its metadata have loaded, registers a timer whose ticks do dispatch:
    each creates a canvas and, in [wasm] mode with a worker, adds a
    submission in flight to that worker, in [server] mode a request in
    flight. *)
Theorem start_while_running_makes_frames_flow :
  forall (now_at : nat -> Z) (random_at : nat -> Q) (w : World)
         (s : MediaStream) (px : Pixels),
    isProcessing (hook w) = true ->
    find_pending (S (next_id (env w))) w = None ->
    find_timer (S (S (next_id (env w)))) w = None ->
    let k := S (next_id (env w)) in
    let w1 := run now_at random_at [Start (Some s); LoadedMetadata k] w in
    let w2 := step now_at random_at w1 (Tick (S k) (Some px)) in
    find_timer (S k) w1 = Some (mkTimer (S k) (current_render w) s) /\
    canvases (env w2) = S (canvases (env w1)) /\
    match mode (hook w), workerRef (hook w) with
    | wasm, Some wk => in_flight_local wk w2 = S (in_flight_local wk w1)
    | wasm, None => outbox (env w2) = outbox (env w1)
    | server, _ => in_flight_remote w2 = S (in_flight_remote w1)
    end.
Proof.
  intros now_at random_at w s px Hp Hpend Htimer k w1 w2.
  set (p := mkPendingStart k (current_render w) s).
  set (tm := mkTimer (S k) (current_render w) s).
  assert (Hw1 : w1 =
    mkWorld
      (with_intervalRef (Some (S k)) (with_streamRef (Some s) (hook w)))
      (mkBrowser (timers (env w) ++ [tm])
         (remove_first (fun q => Nat.eqb (ps_id q) k) (loading (env w) ++ [p]))
         (outbox (env w)) (fetches (env w)) (canvases (env w)) (S k)
         (clock_calls (env w)) (random_calls (env w))
         (console (env w) ++ [ConsoleLog "Object detection started"]))).
  { subst w1. cbn [run fold_left].
    rewrite step_start_running by exact Hp.
    match goal with
    | |- step _ _ ?x _ = _ => set (w0 := x)
    end.
    assert (Hfind : find_pending k w0 = Some p).
    { subst w0. unfold find_pending in *. cbn.
      apply find_snoc_fresh; [exact Hpend|]. cbn. apply Nat.eqb_refl. }
    rewrite (step_loaded _ _ w0 k p Hfind). reflexivity. }
  assert (Hfind1 : find_timer (S k) w1 = Some tm).
  { rewrite Hw1. unfold find_timer in *. cbn.
    apply find_snoc_fresh; [exact Htimer|]. cbn. apply Nat.eqb_refl. }
  assert (Hcl : r_isProcessing (tm_closure tm) = true) by exact Hp.
  split; [exact Hfind1|].
  split; [apply tick_allocates_canvas with (tm := tm); assumption|].
  assert (Hwk1 : workerRef (hook w1) = workerRef (hook w))
    by (rewrite Hw1; destruct (hook w); reflexivity).
  subst w2.
  destruct (mode (hook w)) eqn:Hm.
  - assert (Hmode : r_mode (tm_closure tm) = wasm) by exact Hm.
    destruct (workerRef (hook w)) as [wk|] eqn:Hwk.
    + rewrite (tick_wasm _ _ w1 (S k) tm wk px Hfind1 Hcl Hmode)
        by (rewrite Hwk1; reflexivity).
      destruct w1 as [h1 b1]. apply (in_flight_local_snoc b1 h1 h1 wk).
    + rewrite (step_tick_dropped _ _ w1 (S k) tm (Some px) Hfind1 Hcl)
        by (right; split; [exact Hmode|rewrite Hwk1; reflexivity]).
      reflexivity.
  - assert (Hmode : r_mode (tm_closure tm) = server) by exact Hm.
    rewrite (tick_server _ _ w1 (S k) tm px Hfind1 Hcl Hmode).
    unfold in_flight_remote. cbn. rewrite length_app. cbn. lia.
Qed.

Lemma start_while_running_makes_frames_flow_witness :
  (isProcessing (hook running_once) = true /\
   find_pending 4 running_once = None /\
   find_timer 5 running_once = None) /\
  in_flight_local 1
    (step clock0 dice0
       (run clock0 dice0 [Start (Some camera); LoadedMetadata 4] running_once)
       (Tick 5 (Some frame0))) =
  S (in_flight_local 1
       (run clock0 dice0 [Start (Some camera); LoadedMetadata 4] running_once)).
Proof.
  split; [repeat split; reflexivity|].
  pose proof (start_while_running_makes_frames_flow clock0 dice0 running_once
                camera frame0 eq_refl eq_refl eq_refl) as H.
  cbv zeta in H. destruct H as [_ [_ H3]]. exact H3.
Defined.
